(** * psycopg3 date/time adapters: a shallow embedding of [psycopg3/types/date.py]

    The development follows the layout of the Python module: byte strings and
    text, the exceptions the adapters raise, the session parameters of a
    connection, the dumpers, then the loaders.  The pieces of the Python
    runtime the module calls ([re], [datetime.strptime], [int], [float],
    [timedelta], the [%] operator on bytes) are modelled next to their first
    use. *)

From Stdlib Require Import ZArith List Ascii String Bool Lia.
From Stdlib Require Import Floats.SpecFloat.
Import ListNotations.
Local Open Scope Z_scope.

(** ** Byte strings and text *)

(** A Python [bytes] value: a list of 8-bit characters. *)
Definition bytes := list ascii.

(** A Python [str]: a list of Unicode code points. *)
Definition str := list N.

(** Byte and text literals. *)
Definition B (s : string) : bytes := list_ascii_of_string s.
Definition str_of_bytes (b : bytes) : str := map N_of_ascii b.
Definition T (s : string) : str := str_of_bytes (B s).

Definition byte_val (a : ascii) : Z := Z.of_N (N_of_ascii a).

Definition is_ascii_byte (a : ascii) : bool := byte_val a <? 128.
Definition is_ascii (b : bytes) : bool := forallb is_ascii_byte b.

Definition bytes_eqb (x y : bytes) : bool :=
  if list_eq_dec ascii_dec x y then true else false.

(** [x.startswith(p)] *)
Fixpoint startswith (x p : bytes) {struct p} : bool :=
  match p, x with
  | [], _ => true
  | c :: p', d :: x' => Ascii.eqb c d && startswith x' p'
  | _ :: _, [] => false
  end.

(** [x.endswith(p)] *)
Definition endswith (x p : bytes) : bool := startswith (rev x) (rev p).

(** [s] occurs in [m] as a contiguous run. *)
Definition includes {A} (m s : list A) : Prop := exists pre post, m = pre ++ s ++ post.

(** ** Decimal rendering of integers, as done by [%d] *)

Definition digit_char (d : Z) : ascii := ascii_of_N (Z.to_N (48 + d)).

Fixpoint decimal_fuel (fuel : nat) (n : Z) (acc : bytes) : bytes :=
  match fuel with
  | O => acc
  | S f =>
      let acc' := digit_char (n mod 10) :: acc in
      if n <? 10 then acc' else decimal_fuel f (n / 10) acc'
  end.

(** The decimal digits of a non-negative integer, without padding. *)
Definition decimal (n : Z) : bytes :=
  decimal_fuel (S (Z.to_nat (Z.log2 n))) n [].

(** [b"%d" % n] *)
Definition pct_d (n : Z) : bytes :=
  if n <? 0 then "-"%char :: decimal (- n) else decimal n.

(** [b"%+d" % n]: the sign is always written. *)
Definition pct_plus_d (n : Z) : bytes :=
  if n <? 0 then "-"%char :: decimal (- n) else "+"%char :: decimal n.

(** [b"%0wd" % n] for a non-negative [n]: zero padding on the left up to
    width [w]. *)
Definition pct_0d (w : nat) (n : Z) : bytes :=
  let ds := decimal n in
  repeat "0"%char (w - List.length ds) ++ ds.

(** ** Exceptions *)

(** Why [datetime.strptime] (or the ASCII decoding feeding it) raised
    [ValueError]. *)
Inductive value_error :=
| VE_unicode_decode                       (* UnicodeDecodeError, a ValueError *)
| VE_bad_directive (fmt : bytes)
| VE_no_match (data fmt : bytes)
| VE_unconverted (rest : bytes)
| VE_out_of_range
| VE_inconsistent_colon
| VE_message (m : str).

Inductive exn :=
| ValueError (why : value_error)
| DataError (m : str)
| InterfaceError (m : str)
| NotImplementedError (m : str)
| OverflowError (m : str)
| IndexError.

Inductive result (A : Type) :=
| Ok (a : A)
| Raise (e : exn).
Arguments Ok {A} a.
Arguments Raise {A} e.

Definition bind {A C} (r : result A) (f : A -> result C) : result C :=
  match r with
  | Ok a => f a
  | Raise e => Raise e
  end.

Notation "x <- r ;; k" := (bind r (fun x => k))
  (at level 61, r at next level, right associativity).

(** [data.decode('ascii')]: strict. *)
Definition decode_ascii (data : bytes) : result str :=
  if is_ascii data then Ok (str_of_bytes data) else Raise (ValueError VE_unicode_decode).

(** ** The connection seen from an adapter *)

(** The live session parameters of the connection:
    [pgconn.parameter_status(name)], [None] when the parameter is unset. *)
Definition session := bytes -> option bytes.

(** What [Dumper.__init__] and [Loader.__init__] keep of the context: whether
    a connection is attached.  The parameters are read from the live session
    whenever the code asks for them. *)
Record adapter := { connection : bool }.

(** ** [datetime.timedelta] *)

Record timedelta := mk_timedelta {
  td_days : Z;
  td_seconds : Z;
  td_microseconds : Z
}.

(** [str(timedelta)] *)
Definition timedelta_str (t : timedelta) : bytes :=
  let mm := td_seconds t / 60 in
  let ss := td_seconds t mod 60 in
  let hh := mm / 60 in
  let mm := mm mod 60 in
  let s := pct_d hh ++ B ":" ++ pct_0d 2 mm ++ B ":" ++ pct_0d 2 ss in
  let s :=
    if td_days t =? 0 then s
    else pct_d (td_days t) ++ B " day"
         ++ (if Z.abs (td_days t) =? 1 then [] else B "s") ++ B ", " ++ s in
  if td_microseconds t =? 0 then s
  else s ++ B "." ++ pct_0d 6 (td_microseconds t).

(** ** Dumpers *)

Module TimeDeltaDumper.

(** Which function the instance attribute [dump] is bound to. *)
Inductive binding := dump_default | dump_sql.

Record t := { base : adapter; dump_bound : binding }.

(** [__init__]: with a connection whose [IntervalStyle] is [sql_standard],
    [self.dump] is rebound to [_dump_sql]. *)
Definition init (ctx : bool) (live : session) : t :=
  {| base := {| connection := ctx |};
     dump_bound :=
       if ctx then
         match live (B "IntervalStyle") with
         | Some v => if bytes_eqb v (B "sql_standard") then dump_sql else dump_default
         | None => dump_default
         end
       else dump_default |}.

(** The class attribute [dump]. *)
Definition dump (obj : timedelta) : bytes := timedelta_str obj.

(** [_dump_sql] *)
Definition _dump_sql (obj : timedelta) : bytes :=
  pct_plus_d (td_days obj) ++ B " day "
  ++ pct_plus_d (td_seconds obj) ++ B " second "
  ++ pct_plus_d (td_microseconds obj) ++ B " microsecond".

(** A call [self.dump(obj)] on an instance, made while the session is
    [live]. *)
Definition call (self : t) (live : session) (obj : timedelta) : bytes :=
  match dump_bound self with
  | dump_default => dump obj
  | dump_sql => _dump_sql obj
  end.

End TimeDeltaDumper.


(** ** Regular expressions, as matched by [re.match]

    The fragment of Python's [re] that the interval pattern and
    [datetime.strptime] need: a backtracking matcher that tries alternatives
    from left to right, repeats greedily, and records named groups.  A failed
    attempt leaves the groups as they were before it. *)

Inductive regex :=
| Eps
| Chr (p : ascii -> bool)
| Seq (a b : regex)
| Alt (a b : regex)
| Opt (a : regex)                 (* [a?], greedy *)
| Star (p : ascii -> bool)        (* [c*] over a character class, greedy *)
| Group (name : string) (a : regex).

Definition Plus (p : ascii -> bool) : regex := Seq (Chr p) (Star p).

(** The groups matched so far, most recent binding first. *)
Definition groups := list (string * bytes).

Fixpoint group (g : groups) (name : string) : option bytes :=
  match g with
  | [] => None
  | (n, v) :: g' => if String.eqb n name then Some v else group g' name
  end.

Section Matcher.
Context {R : Type}.

(** What remains to be matched after a sub-pattern: it receives the
    unread input and the groups. *)
Definition cont := bytes -> groups -> option R.

Fixpoint match_star (p : ascii -> bool) (s : bytes) (g : groups) (k : cont)
  : option R :=
  match s with
  | c :: s' =>
      if p c then
        match match_star p s' g k with
        | Some r => Some r
        | None => k s g
        end
      else k s g
  | [] => k s g
  end.

Fixpoint match_re (r : regex) (s : bytes) (g : groups) (k : cont) : option R :=
  match r with
  | Eps => k s g
  | Chr p =>
      match s with
      | c :: s' => if p c then k s' g else None
      | [] => None
      end
  | Seq a b => match_re a s g (fun s' g' => match_re b s' g' k)
  | Alt a b =>
      match match_re a s g k with
      | Some r => Some r
      | None => match_re b s g k
      end
  | Opt a =>
      match match_re a s g k with
      | Some r => Some r
      | None => k s g
      end
  | Star p => match_star p s g k
  | Group name a =>
      match_re a s g
        (fun s' g' => k s' ((name, firstn (List.length s - List.length s') s) :: g'))
  end.
End Matcher.

(** [pattern.match(data)]: the groups and the unread rest of the input, or
    [None] when the pattern does not match at the start of [data]. *)
Definition re_match (r : regex) (data : bytes) : option (groups * bytes) :=
  match_re r data [] (fun rest g => Some (g, rest)).

(** Character classes. *)
Definition is_char (c : ascii) : ascii -> bool := Ascii.eqb c.
Definition is_digit (c : ascii) : bool := (48 <=? byte_val c) && (byte_val c <=? 57).
Definition is_sign (c : ascii) : bool := is_char "-" c || is_char "+" c.
(** [\s] in a bytes pattern: space, [\t], [\n], [\v], [\f], [\r]. *)
Definition is_space (c : ascii) : bool :=
  (byte_val c =? 32) || ((9 <=? byte_val c) && (byte_val c <=? 13)).

(** A literal run of characters. *)
Fixpoint Lit (cs : bytes) : regex :=
  match cs with
  | [] => Eps
  | c :: cs' => Seq (Chr (is_char c)) (Lit cs')
  end.

Fixpoint Seqs (rs : list regex) : regex :=
  match rs with
  | [] => Eps
  | r :: rs' => Seq r (Seqs rs')
  end.

(** ** [int] and [float] of a byte string *)

Definition digit_val (c : ascii) : Z := byte_val c - 48.

(** The value of a run of decimal digits. *)
Definition digits_val (ds : bytes) : Z :=
  fold_left (fun acc c => 10 * acc + digit_val c) ds 0.

Definition all_digits (ds : bytes) : bool :=
  match ds with
  | [] => false
  | _ => forallb is_digit ds
  end.

(** The default of [sys.get_int_max_str_digits()]: CPython 3.11, and the
    security releases of 3.7 to 3.10, refuse to convert a longer run of
    digits.  Earlier interpreters convert any number of digits; on the
    texts within the limit both agree. *)
Definition int_max_str_digits : Z := 4300.

Definition invalid_literal : exn :=
  ValueError (VE_message (T "invalid literal for int()")).

Definition exceeds_limit (ds : bytes) : exn :=
  ValueError
    (VE_message
       (str_of_bytes
          (B "Exceeds the limit (4300 digits) for integer string conversion: value has "
           ++ pct_d (Z.of_nat (List.length ds))
           ++ B " digits; use sys.set_int_max_str_digits() to increase the limit"))).

(** The value of a run of decimal digits, within the limit on its length. *)
Definition int_of_digits (ds : bytes) : result Z :=
  if all_digits ds then
    if Z.of_nat (List.length ds) <=? int_max_str_digits then Ok (digits_val ds)
    else Raise (exceeds_limit ds)
  else Raise invalid_literal.

(** [int(b)] for [b] an optional sign followed by decimal digits, the only
    shape the patterns of this module capture; anything else is
    [ValueError]. *)
Definition py_int (b : bytes) : result Z :=
  match b with
  | c :: ds =>
      if is_char "-" c then n <- int_of_digits ds ;; Ok (- n)
      else if is_char "+" c then int_of_digits ds
      else int_of_digits b
  | [] => Raise invalid_literal
  end.

(** Python's [float] is an IEEE 754 binary64 number. *)
Definition prec : Z := 53.
Definition emax : Z := 1024.
Definition float := spec_float.

Definition float_of_Z_raw (z : Z) : float := binary_normalize prec emax z 0 false.

Definition is_finite (x : float) : bool :=
  match x with
  | S754_zero _ | S754_finite _ _ _ => true
  | _ => false
  end.

(** The conversion of an [int] operand in [int + float]: correctly rounded,
    [OverflowError] when the integer is beyond the largest float. *)
Definition float_of_int (z : Z) : result float :=
  let x := float_of_Z_raw z in
  if is_finite x then Ok x
  else Raise (OverflowError (T "int too large to convert to float")).

(** The float nearest to [n / 10^k] (ties to even). *)
Definition float_of_ratio10 (n : Z) (k : nat) : float :=
  match n with
  | Zpos p => SFdiv prec emax (S754_finite false p 0)
                (S754_finite false (Z.to_pos (10 ^ Z.of_nat k)) 0)
  | _ => S754_zero false
  end.

(** Splits [b] at the first occurrence of [c]. *)
Fixpoint cut (c : ascii) (b : bytes) : bytes * option bytes :=
  match b with
  | [] => ([], None)
  | d :: b' =>
      if Ascii.eqb c d then ([], Some b')
      else let '(h, t) := cut c b' in (d :: h, t)
  end.

(** [float(b)] for [b] of the shape [digits] or [digits.digits], the only
    shape the [seconds] group captures; the result is the correctly rounded
    value of the decimal numeral. *)
Definition py_float (b : bytes) : result float :=
  match cut "." b with
  | (i, None) =>
      if all_digits i then Ok (float_of_ratio10 (digits_val i) 0)
      else Raise (ValueError (VE_message (T "could not convert string to float")))
  | (i, Some f) =>
      if all_digits i && all_digits f
      then Ok (float_of_ratio10 (digits_val (i ++ f)) (List.length f))
      else Raise (ValueError (VE_message (T "could not convert string to float")))
  end.

Definition float_add (x y : float) : float := SFadd prec emax x y.
Definition float_mul (x y : float) : float := SFmul prec emax x y.
Definition float_neg (x : float) : float := SFopp x.

(** [math.modf]: the fractional and the integral part of a finite float, the
    integral part as an integer. *)
Definition float_modf (x : float) : option (float * Z) :=
  match x with
  | S754_zero s => Some (S754_zero s, 0)
  | S754_finite s m e =>
      let sign := if s then (-1) else 1 in
      if 0 <=? e then Some (S754_zero s, sign * (Zpos m * 2 ^ e))
      else
        let d := 2 ^ (- e) in
        Some (binary_normalize prec emax (sign * (Zpos m mod d)) e s,
              sign * (Zpos m / d))
  | _ => None
  end.

(** [round(x)] of a finite float: the nearest integer, ties to even. *)
Definition float_round (x : float) : option Z :=
  match x with
  | S754_zero _ => Some 0
  | S754_finite s m e =>
      let sign := if s then (-1) else 1 in
      if 0 <=? e then Some (sign * (Zpos m * 2 ^ e))
      else
        let d := 2 ^ (- e) in
        let q := Zpos m / d in
        let r := Zpos m mod d in
        let q' :=
          match 2 * r ?= d with
          | Lt => q
          | Gt => q + 1
          | Eq => if Z.even q then q else q + 1
          end in
        Some (sign * q')
  | _ => None
  end.


(** [timedelta(days=days, seconds=seconds)] with an [int] number of days and
    a [float] number of seconds: the whole seconds and the microseconds
    (the fraction times [1e6], rounded half to even) are carried into
    normalised days, seconds and microseconds; [OverflowError] when the
    seconds are infinite, when the normalised days do not fit a C [int]
    (the constructor is CPython's [delta_new], which converts them with
    [_PyLong_AsInt]), and when they fit but leave the range of the type. *)
Definition timedelta_new (days : Z) (seconds : float) : result timedelta :=
  match float_modf seconds with
  | None =>
      match seconds with
      | S754_nan => Raise (ValueError (VE_message (T "cannot convert float NaN to integer")))
      | _ => Raise (OverflowError (T "cannot convert float infinity to integer"))
      end
  | Some (secondsfrac, whole) =>
      let d := days + whole / 86400 in
      let s := whole mod 86400 in
      let usdouble := float_mul secondsfrac (float_of_Z_raw 1000000) in
      match float_round (float_add (float_of_Z_raw 0) usdouble) with
      | None => Raise (OverflowError (T "cannot convert float infinity to integer"))
      | Some microseconds =>
          let s := s + microseconds / 1000000 in
          let us := microseconds mod 1000000 in
          let d := d + s / 86400 in
          let s := s mod 86400 in
          if (d <? - 2147483648) || (2147483647 <? d) then
            Raise (OverflowError (T "Python int too large to convert to C int"))
          else if Z.abs d >? 999999999 then
            Raise (OverflowError
                     (str_of_bytes (B "days=" ++ pct_d d
                                    ++ B "; must have magnitude <= 999999999")))
          else Ok (mk_timedelta d s us)
      end
  end.


(** ** [bytes.decode('utf8', 'replace')]

    Every maximal ill-formed run is replaced by U+FFFD: a byte that cannot
    start a sequence is replaced on its own; a sequence broken by a byte that
    cannot continue it is replaced up to that byte, which is read again; a
    sequence cut short by the end of the input is replaced whole. *)

Definition is_cont (c : ascii) : bool := (128 <=? byte_val c) && (byte_val c <=? 191).

Definition replacement : N := 65533%N.

Definition cont_bits (c : ascii) : N := N.land (N_of_ascii c) 63.

Fixpoint utf8_replace_fuel (fuel : nat) (b : bytes) : str :=
  match fuel with
  | O => []
  | S fuel' =>
      match b with
      | [] => []
      | c :: r =>
          let v := byte_val c in
          if v <? 128 then N_of_ascii c :: utf8_replace_fuel fuel' r
          else if (v <? 194) || (244 <? v) then replacement :: utf8_replace_fuel fuel' r
          else if v <? 224 then
            match r with
            | [] => [replacement]
            | c1 :: r1 =>
                if is_cont c1
                then (N.land (N_of_ascii c) 31 * 64 + cont_bits c1)%N
                       :: utf8_replace_fuel fuel' r1
                else replacement :: utf8_replace_fuel fuel' r
            end
          else if v <? 240 then
            match r with
            | [] => [replacement]
            | c1 :: r1 =>
                let lo := if v =? 224 then 160 else 128 in
                let hi := if v =? 237 then 159 else 191 in
                if (lo <=? byte_val c1) && (byte_val c1 <=? hi) then
                  match r1 with
                  | [] => [replacement]
                  | c2 :: r2 =>
                      if is_cont c2
                      then ((N.land (N_of_ascii c) 15 * 64 + cont_bits c1) * 64
                            + cont_bits c2)%N :: utf8_replace_fuel fuel' r2
                      else replacement :: utf8_replace_fuel fuel' r1
                  end
                else replacement :: utf8_replace_fuel fuel' r
            end
          else
            match r with
            | [] => [replacement]
            | c1 :: r1 =>
                let lo := if v =? 240 then 144 else 128 in
                let hi := if v =? 244 then 143 else 191 in
                if (lo <=? byte_val c1) && (byte_val c1 <=? hi) then
                  match r1 with
                  | [] => [replacement]
                  | c2 :: r2 =>
                      if is_cont c2 then
                        match r2 with
                        | [] => [replacement]
                        | c3 :: r3 =>
                            if is_cont c3
                            then (((N.land (N_of_ascii c) 7 * 64 + cont_bits c1) * 64
                                   + cont_bits c2) * 64 + cont_bits c3)%N
                                   :: utf8_replace_fuel fuel' r3
                            else replacement :: utf8_replace_fuel fuel' r2
                        end
                      else replacement :: utf8_replace_fuel fuel' r1
                  end
                else replacement :: utf8_replace_fuel fuel' r
            end
      end
  end.

Definition decode_utf8_replace (b : bytes) : str :=
  utf8_replace_fuel (List.length b) b.

(** ** [datetime.date], [datetime.time], [datetime.datetime] *)

Record date := mk_date { year : Z; month : Z; day : Z }.

(** A fixed offset from UTC: seconds and microseconds, as [timezone] holds
    them in a [timedelta]. *)
Record tzinfo := mk_tz { utcoffset_seconds : Z; utcoffset_microseconds : Z }.

Record time := mk_time {
  hour : Z; minute : Z; second : Z; microsecond : Z;
  time_tz : option tzinfo
}.

Record datetime := mk_datetime { dt_date : date; dt_time : time }.

Definition is_leap (y : Z) : bool :=
  (y mod 4 =? 0) && (negb (y mod 100 =? 0) || (y mod 400 =? 0)).

Definition days_in_month (y m : Z) : Z :=
  if m =? 2 then (if is_leap y then 29 else 28)
  else if (m =? 4) || (m =? 6) || (m =? 9) || (m =? 11) then 30
  else 31.

(** The dates [datetime.date] can hold. *)
Definition valid_date (d : date) : bool :=
  (1 <=? year d) && (year d <=? 9999)
  && (1 <=? month d) && (month d <=? 12)
  && (1 <=? day d) && (day d <=? days_in_month (year d) (month d)).

(** [str(date)], i.e. [date.isoformat()]. *)
Definition date_str (d : date) : bytes :=
  pct_0d 4 (year d) ++ B "-" ++ pct_0d 2 (month d) ++ B "-" ++ pct_0d 2 (day d).

(** The offset as [isoformat] writes it: sign, hours and minutes, then the
    seconds and the microseconds when there are some. *)
Definition offset_str (tz : option tzinfo) : bytes :=
  match tz with
  | None => []
  | Some z =>
      let total := utcoffset_seconds z * 1000000 + utcoffset_microseconds z in
      let a := Z.abs total in
      let hh := a / 3600000000 in
      let mm := a mod 3600000000 / 60000000 in
      let ss := a mod 60000000 / 1000000 in
      let us := a mod 1000000 in
      (if total <? 0 then B "-" else B "+")
      ++ pct_0d 2 hh ++ B ":" ++ pct_0d 2 mm
      ++ (if (ss =? 0) && (us =? 0) then [] else B ":" ++ pct_0d 2 ss)
      ++ (if us =? 0 then [] else B "." ++ pct_0d 6 us)
  end.

(** [str(time)], i.e. [time.isoformat()]. *)
Definition time_str (t : time) : bytes :=
  pct_0d 2 (hour t) ++ B ":" ++ pct_0d 2 (minute t) ++ B ":" ++ pct_0d 2 (second t)
  ++ (if microsecond t =? 0 then [] else B "." ++ pct_0d 6 (microsecond t))
  ++ offset_str (time_tz t).

(** [str(datetime)], i.e. [datetime.isoformat(sep=' ')]. *)
Definition datetime_str (dt : datetime) : bytes :=
  date_str (dt_date dt) ++ B " " ++ time_str (dt_time dt).

(** The times [datetime.time] can hold. *)
Definition valid_time (t : time) : bool :=
  (0 <=? hour t) && (hour t <? 24) && (0 <=? minute t) && (minute t <? 60)
  && (0 <=? second t) && (second t <? 60)
  && (0 <=? microsecond t) && (microsecond t <? 1000000).

(** ** [datetime.strptime]

    The directives the formats of this module use, with the patterns of
    CPython's [_strptime] (C locale, Python 3.7 and later).  The format is
    turned into a regular expression matched without regard to case; a run
    of blanks in the format stands for [\s+]. *)

Definition lower (c : ascii) : ascii :=
  if (65 <=? byte_val c) && (byte_val c <=? 90)
  then ascii_of_N (N_of_ascii c + 32) else c.

(** A literal character under [re.IGNORECASE]. *)
Definition is_char_i (c : ascii) : ascii -> bool :=
  fun d => Ascii.eqb (lower c) (lower d).

(** [\s] in a text pattern. *)
Definition is_uspace (c : ascii) : bool :=
  is_space c || ((28 <=? byte_val c) && (byte_val c <=? 31)).

Definition in_range (lo hi : ascii) (c : ascii) : bool :=
  (byte_val lo <=? byte_val c) && (byte_val c <=? byte_val hi).

Fixpoint Lit_i (cs : bytes) : regex :=
  match cs with
  | [] => Eps
  | c :: cs' => Seq (Chr (is_char_i c)) (Lit_i cs')
  end.

Fixpoint Alts (r : regex) (rs : list regex) : regex :=
  match rs with
  | [] => r
  | r' :: rs' => Alt r (Alts r' rs')
  end.

Definition a_weekday : list string :=
  ["mon"; "tue"; "wed"; "thu"; "fri"; "sat"; "sun"]%string.

Definition a_month : list string :=
  ["jan"; "feb"; "mar"; "apr"; "may"; "jun";
   "jul"; "aug"; "sep"; "oct"; "nov"; "dec"]%string.

Definition names_re (names : list string) : regex :=
  match map (fun n => Lit_i (B n)) names with
  | [] => Eps
  | r :: rs => Alts r rs
  end.

Definition D : regex := Chr is_digit.

(** [\d{1,6}] *)
Definition digits_1_6 : regex :=
  Seq D (Opt (Seq D (Opt (Seq D (Opt (Seq D (Opt (Seq D (Opt D))))))))).

(** [%d]: [3[0-1]|[1-2]\d|0[1-9]|[1-9]| [1-9]] *)
Definition re_d : regex :=
  Group "d" (Alts (Seq (Chr (is_char "3")) (Chr (in_range "0" "1")))
               [Seq (Chr (in_range "1" "2")) D;
                Seq (Chr (is_char "0")) (Chr (in_range "1" "9"));
                Chr (in_range "1" "9");
                Seq (Chr (is_char " ")) (Chr (in_range "1" "9"))]).

(** [%m]: [1[0-2]|0[1-9]|[1-9]] *)
Definition re_m : regex :=
  Group "m" (Alts (Seq (Chr (is_char "1")) (Chr (in_range "0" "2")))
               [Seq (Chr (is_char "0")) (Chr (in_range "1" "9"));
                Chr (in_range "1" "9")]).

(** [%Y]: [\d\d\d\d] *)
Definition re_Y : regex := Group "Y" (Seqs [D; D; D; D]).

(** The pattern of a directive. *)
Definition directive (c : ascii) : option regex :=
  if is_char "d" c then Some re_d
  else if is_char "f" c then Some (Group "f" digits_1_6)
  else if is_char "H" c then
    Some (Group "H" (Alts (Seq (Chr (is_char "2")) (Chr (in_range "0" "3")))
                       [Seq (Chr (in_range "0" "1")) D; D]))
  else if is_char "M" c then
    Some (Group "M" (Alts (Seq (Chr (in_range "0" "5")) D) [D]))
  else if is_char "S" c then
    Some (Group "S" (Alts (Seq (Chr (is_char "6")) (Chr (in_range "0" "1")))
                       [Seq (Chr (in_range "0" "5")) D; D]))
  else if is_char "m" c then Some re_m
  else if is_char "Y" c then Some re_Y
  else if is_char "z" c then
    Some (Group "z"
            (Alt (Seqs [Chr is_sign; D; D; Opt (Chr (is_char ":"));
                        Chr (in_range "0" "5"); D;
                        Opt (Seqs [Opt (Chr (is_char ":"));
                                   Chr (in_range "0" "5"); D;
                                   Opt (Seq (Chr (is_char ".")) digits_1_6)])])
                 (Chr (is_char "Z"))))
  else if is_char "a" c then Some (Group "a" (names_re a_weekday))
  else if is_char "b" c then Some (Group "b" (names_re a_month))
  else if is_char "%" c then Some (Chr (is_char "%"))
  else None.

(** The pattern of a format; [fuel] bounds the length of the format. *)
Fixpoint format_regex_fuel (fuel : nat) (fmt : bytes) : option regex :=
  match fuel with
  | O => Some Eps
  | S fuel' =>
      match fmt with
      | [] => Some Eps
      | c :: fmt' =>
          if is_char "%" c then
            match fmt' with
            | [] => None
            | d :: fmt'' =>
                match directive d, format_regex_fuel fuel' fmt'' with
                | Some r, Some rest => Some (Seq r rest)
                | _, _ => None
                end
            end
          else if is_uspace c then
            match fmt' with
            | d :: _ =>
                if is_uspace d then format_regex_fuel fuel' fmt'
                else option_map (Seq (Plus is_uspace)) (format_regex_fuel fuel' fmt')
            | [] => Some (Plus is_uspace)
            end
          else option_map (Seq (Chr (is_char_i c))) (format_regex_fuel fuel' fmt')
      end
  end.

Definition format_regex (fmt : bytes) : option regex :=
  format_regex_fuel (List.length fmt) fmt.

(** The position of a name in a list: [list.index]. *)
Fixpoint index_of (names : list string) (x : bytes) (i : Z) : option Z :=
  match names with
  | [] => None
  | n :: names' =>
      if bytes_eqb (B n) x then Some i else index_of names' x (i + 1)
  end.

(** [int(found_dict[name])]: [int] skips the blank that [%d] may capture
    before a single digit. *)
Fixpoint lstrip (b : bytes) : bytes :=
  match b with
  | c :: b' => if is_uspace c then lstrip b' else b
  | [] => []
  end.

Definition group_int (g : groups) (name : string) (default : Z) : Z :=
  match group g name with
  | Some b => digits_val (lstrip b)
  | None => default
  end.

(** The digits of a fraction, padded with zeros on the right to six. *)
Definition pad6 (b : bytes) : bytes := b ++ repeat "0"%char (6 - List.length b).

(** [b[i:j]] for non-negative positions. *)
Definition slice (b : bytes) (i j : nat) : bytes := firstn (j - i) (skipn i b).

(** The offset a [%z] field stands for: the colon after the hours, and
    then the one after the minutes, are dropped, and the fields are read
    with [int] at fixed positions, so that a field written [+HHMM:SS] ends
    in the [ValueError] of [int(':S')]. *)
Definition parse_z (z : bytes) : result tzinfo :=
  if bytes_eqb z (B "Z") then Ok (mk_tz 0 0)
  else
    z1 <-
      match nth_error z 3 with
      | Some c =>
          if is_char ":" c then
            let z' := slice z 0 3 ++ skipn 4 z in
            if 5 <? Z.of_nat (List.length z') then
              match nth_error z' 5 with
              | Some c' =>
                  if is_char ":" c' then Ok (slice z' 0 5 ++ skipn 6 z')
                  else Raise (ValueError VE_inconsistent_colon)
              | None => Ok z'
              end
            else Ok z'
          else Ok z
      | None => Ok z
      end ;;
    hours <- py_int (slice z1 1 3) ;;
    minutes <- py_int (slice z1 3 5) ;;
    seconds <-
      match slice z1 5 7 with
      | [] => Ok 0
      | ss => py_int ss
      end ;;
    let gmtoff := hours * 3600 + minutes * 60 + seconds in
    fraction <- py_int (pad6 (skipn 8 z1)) ;;
    if startswith z1 (B "-") then Ok (mk_tz (- gmtoff) (- fraction))
    else Ok (mk_tz gmtoff fraction).

(** [datetime.strptime(data, fmt)], [data] being ASCII text. *)
Definition strptime (data fmt : bytes) : result datetime :=
  match format_regex fmt with
  | None => Raise (ValueError (VE_bad_directive fmt))
  | Some re =>
      match re_match re data with
      | None => Raise (ValueError (VE_no_match data fmt))
      | Some (g, c :: rest) => Raise (ValueError (VE_unconverted (c :: rest)))
      | Some (g, []) =>
          let y := group_int g "Y" 1900 in
          mo <-
            match group g "b" with
            | Some b =>
                match index_of a_month (map lower b) 1 with
                | Some i => Ok i
                | None => Raise (ValueError VE_out_of_range)
                end
            | None => Ok (group_int g "m" 1)
            end ;;
          let d := group_int g "d" 1 in
          let h := group_int g "H" 0 in
          let mi := group_int g "M" 0 in
          let sec := group_int g "S" 0 in
          let us :=
            match group g "f" with
            | Some f => digits_val (pad6 f)
            | None => 0
            end in
          tz <-
            match group g "z" with
            | Some z => t <- parse_z z ;; Ok (Some t)
            | None => Ok None
            end ;;
          if negb (valid_date (mk_date y mo d)) then Raise (ValueError VE_out_of_range)
          else if 59 <? sec then Raise (ValueError VE_out_of_range)
          else
            match tz with
            | Some t =>
                if 86400 <=? Z.abs (utcoffset_seconds t)
                then Raise (ValueError VE_out_of_range)
                else Ok (mk_datetime (mk_date y mo d) (mk_time h mi sec us tz))
            | None => Ok (mk_datetime (mk_date y mo d) (mk_time h mi sec us None))
            end
      end
  end.

(** [__decode(data)[0]] followed by [datetime.strptime]: both raise
    [ValueError]. *)
Definition decode_strptime (data fmt : bytes) : result datetime :=
  if is_ascii data then strptime data fmt
  else Raise (ValueError VE_unicode_decode).

(** ** Loaders *)

Module IntervalLoader.

(** [_re_interval] (the pattern is compiled with [re.VERBOSE], so its
    blanks and line breaks are not part of it). *)
Definition signed_number : regex := Seq (Opt (Chr is_sign)) (Plus is_digit).

Definition unit_group (name : string) (unit : string) : regex :=
  Opt (Seqs [Group name signed_number; Plus is_space; Lit (B unit);
             Opt (Chr (is_char "s")); Star is_space]).

Definition _re_interval : regex :=
  Seqs [unit_group "years" "year";
        unit_group "months" "mon";
        unit_group "days" "day";
        Opt (Seqs [Opt (Group "hsign" (Chr is_sign));
                   Group "hours" (Plus is_digit);
                   Chr (is_char ":");
                   Group "minutes" (Plus is_digit);
                   Chr (is_char ":");
                   Group "seconds"
                     (Seq (Plus is_digit)
                          (Opt (Seq (Chr (is_char ".")) (Plus is_digit))))])].

(** Which function the instance attribute [load] is bound to. *)
Inductive binding := load_default | load_notimpl.

Record t := { base : adapter; load_bound : binding }.

(** [__init__]: with a connection whose [IntervalStyle] is not
    [b"postgres"] (an unset parameter included), [self.load] is rebound to
    [_load_notimpl]. *)
Definition init (ctx : bool) (live : session) : t :=
  {| base := {| connection := ctx |};
     load_bound :=
       if ctx then
         match live (B "IntervalStyle") with
         | Some v => if bytes_eqb v (B "postgres") then load_default else load_notimpl
         | None => load_notimpl
         end
       else load_default |}.

(** The truth value of [m.group(name)]: a group that took part in the
    match and is not empty. *)
Definition truthy (v : option bytes) : option bytes :=
  match v with
  | Some (c :: b) => Some (c :: b)
  | _ => None
  end.

(** [days += factor * int(tmp)] when the group is there. *)
Definition add_group (g : groups) (name : string) (factor days : Z) : result Z :=
  match truthy (group g name) with
  | Some tmp => n <- py_int tmp ;; Ok (days + factor * n)
  | None => Ok days
  end.

(** [m.group(name)] handed to a conversion; a [None] group makes the
    conversion raise [TypeError], which no path here reaches. *)
Definition group_bytes (g : groups) (name : string) : bytes :=
  match group g name with
  | Some b => b
  | None => []
  end.

(** The class attribute [load]. *)
Definition load (data : bytes) : result timedelta :=
  match re_match _re_interval data with
  | None =>
      (* the message is a plain string: the braces are not interpolated *)
      Raise (ValueError (VE_message (T "can't parse interval: {data.decode('ascii')}")))
  | Some (m, _) =>
      days <- add_group m "years" 365 0 ;;
      days <- add_group m "months" 30 days ;;
      days <- add_group m "days" 1 days ;;
      seconds <-
        match truthy (group m "hours") with
        | Some hours =>
            h <- py_int hours ;;
            mi <- py_int (group_bytes m "minutes") ;;
            s <- py_float (group_bytes m "seconds") ;;
            hm <- float_of_int (3600 * h + 60 * mi) ;;
            let seconds := float_add hm s in
            match group m "hsign" with
            | Some sg => if bytes_eqb sg (B "-") then Ok (float_neg seconds) else Ok seconds
            | None => Ok seconds
            end
        | None => Ok (S754_zero false)
        end ;;
      match timedelta_new days seconds with
      | Raise (OverflowError e) => Raise (DataError e)
      | r => r
      end
  end.

(** [_load_notimpl]: reads the live [IntervalStyle] again for the message;
    both decodings are strict ASCII. *)
Definition _load_notimpl (self : t) (live : session) (data : bytes)
  : result timedelta :=
  let ints :=
    if connection (base self) then
      match live (B "IntervalStyle") with
      | Some (c :: v) => c :: v
      | _ => B "unknown"
      end
    else B "unknown" in
  style <- decode_ascii ints ;;
  text <- decode_ascii data ;;
  Raise (NotImplementedError
           (T "can't parse interval with IntervalStyle " ++ style ++ T ": " ++ text)).

(** A call [self.load(data)] on an instance, made while the session is
    [live]. *)
Definition call (self : t) (live : session) (data : bytes) : result timedelta :=
  match load_bound self with
  | load_default => load data
  | load_notimpl => _load_notimpl self live data
  end.

End IntervalLoader.


(** ** Helpers on byte strings used by the date and time loaders *)

(** [b.split(sep)] for a one-byte separator: never empty. *)
Fixpoint split_on (sep : ascii) (b : bytes) : list bytes :=
  match b with
  | [] => [[]]
  | c :: b' =>
      if Ascii.eqb sep c then [] :: split_on sep b'
      else
        match split_on sep b' with
        | p :: ps => (c :: p) :: ps
        | [] => [[c]]
        end
  end.

(** [b.split()]: the runs of non-blank bytes. *)
Fixpoint split_blank_acc (b : bytes) (cur : bytes) : list bytes :=
  match b with
  | [] => match cur with [] => [] | _ => [rev cur] end
  | c :: b' =>
      if is_space c then
        match cur with
        | [] => split_blank_acc b' []
        | _ => rev cur :: split_blank_acc b' []
        end
      else split_blank_acc b' (c :: cur)
  end.

Definition split_blank (b : bytes) : list bytes := split_blank_acc b [].

Definition len (b : bytes) : Z := Z.of_nat (List.length b).

(** [max(map(len, parts))] for a non-empty list. *)
Definition max_len (parts : list bytes) : Z :=
  fold_right (fun p m => Z.max (len p) m) 0 parts.

(** [b.replace(old, b"")], [fuel] bounding the length of [b]. *)
Fixpoint remove_all_fuel (fuel : nat) (old b : bytes) : bytes :=
  match fuel with
  | O => b
  | S fuel' =>
      match b with
      | [] => []
      | c :: b' =>
          if startswith b old
          then remove_all_fuel fuel' old (skipn (List.length old) b)
          else c :: remove_all_fuel fuel' old b'
      end
  end.

Definition remove_all (old b : bytes) : bytes := remove_all_fuel (List.length b) old b.

(** [c in b] *)
Definition contains (c : ascii) (b : bytes) : bool := existsb (Ascii.eqb c) b.

(** [b[-i]] for [i >= 1]; [IndexError] when [b] is shorter. *)
Definition index_from_end (b : bytes) (i : nat) : result ascii :=
  match nth_error (rev b) (i - 1) with
  | Some c => Ok c
  | None => Raise IndexError
  end.

(** [c in (43, 45)] *)
Definition is_plus_minus (c : ascii) : bool := (byte_val c =? 43) || (byte_val c =? 45).

(** ** The date dumper *)

Module DateDumper.

Record t := { base : adapter }.

Definition init (ctx : bool) (live : session) : t :=
  {| base := {| connection := ctx |} |}.

(** [dump]: [str(obj)] encoded as ASCII. *)
Definition dump (self : t) (obj : date) : bytes := date_str obj.

End DateDumper.

(** ** The time and timestamp dumpers *)

Module TimeDumper.

Record t := { base : adapter }.

Definition init (ctx : bool) (live : session) : t :=
  {| base := {| connection := ctx |} |}.

(** [dump]: [str(obj)] encoded as ASCII. *)
Definition dump (self : t) (obj : time) : bytes := time_str obj.

End TimeDumper.

Module DateTimeDumper.

Record t := { base : adapter }.

Definition init (ctx : bool) (live : session) : t :=
  {| base := {| connection := ctx |} |}.

(** [dump]: [str(obj)] encoded as ASCII. *)
Definition dump (self : t) (obj : datetime) : bytes := datetime_str obj.

End DateTimeDumper.

(** ** The date and timestamp loaders *)

(** [_get_datestyle]: the live [DateStyle], [b"ISO, DMY"] without a
    connection or when the parameter is unset or empty. *)
Definition _get_datestyle (self : adapter) (live : session) : bytes :=
  if connection self then
    match live (B "DateStyle") with
    | Some (c :: ds) => c :: ds
    | _ => B "ISO, DMY"
    end
  else B "ISO, DMY".

Definition unexpected_datestyle {A} (ds : bytes) : result A :=
  name <- decode_ascii ds ;;
  Raise (InterfaceError (T "unexpected DateStyle: " ++ name)).

Module DateLoader.

Record t := { base : adapter; _format : bytes }.

Definition _format_from_context (self : adapter) (live : session) : result bytes :=
  let ds := _get_datestyle self live in
  if startswith ds (B "I") then Ok (B "%Y-%m-%d")
  else if startswith ds (B "G") then Ok (B "%d.%m.%Y")
  else if startswith ds (B "S") then
    Ok (if endswith ds (B "DMY") then B "%d/%m/%Y" else B "%m/%d/%Y")
  else if startswith ds (B "P") then
    Ok (if endswith ds (B "DMY") then B "%d-%m-%Y" else B "%m-%d-%Y")
  else unexpected_datestyle ds.

Definition init (ctx : bool) (live : session) : result t :=
  let a := {| connection := ctx |} in
  f <- _format_from_context a live ;;
  Ok {| base := a; _format := f |}.

(** [_get_year_digits], for a loader whose format is [fmt]. *)
Definition _get_year_digits (fmt : bytes) (data : bytes) : result Z :=
  match nth_error fmt 2 with
  | Some datesep =>
      let parts :=
        split_on datesep (match split_on " " data with p :: _ => p | [] => [] end) in
      Ok (max_len parts)
  | None => Raise IndexError
  end.

(** [_raise_error]; [year_digits] is [self._get_year_digits(data)], which
    a subclass overrides. *)
Definition _raise_error {A} (year_digits : result Z) (data : bytes) (exc : exn)
  : result A :=
  if endswith data (B "BC") then
    Raise (DataError (T "Python doesn't support BC date: got "
                      ++ decode_utf8_replace data))
  else
    n <- year_digits ;;
    if n >? 4 then
      Raise (DataError (T "Python date doesn't support years after 9999: got "
                        ++ decode_utf8_replace data))
    else Raise exc.

Definition load (self : t) (data : bytes) : result date :=
  match decode_strptime data (_format self) with
  | Ok dt => Ok (dt_date dt)
  | Raise (ValueError e) =>
      _raise_error (_get_year_digits (_format self) data) data (ValueError e)
  | Raise e => Raise e
  end.

End DateLoader.

Module TimestampLoader.

Record t := { base : adapter; _format : bytes; _format_no_micro : bytes }.

Definition _format_from_context (self : adapter) (live : session) : result bytes :=
  let ds := _get_datestyle self live in
  if startswith ds (B "I") then Ok (B "%Y-%m-%d %H:%M:%S.%f")
  else if startswith ds (B "G") then Ok (B "%d.%m.%Y %H:%M:%S.%f")
  else if startswith ds (B "S") then
    Ok (if endswith ds (B "DMY") then B "%d/%m/%Y %H:%M:%S.%f"
        else B "%m/%d/%Y %H:%M:%S.%f")
  else if startswith ds (B "P") then
    Ok (if endswith ds (B "DMY") then B "%a %d %b %H:%M:%S.%f %Y"
        else B "%a %b %d %H:%M:%S.%f %Y")
  else unexpected_datestyle ds.

Definition init (ctx : bool) (live : session) : result t :=
  let a := {| connection := ctx |} in
  f <- _format_from_context a live ;;
  Ok {| base := a; _format := f; _format_no_micro := remove_all (B ".%f") f |}.

(** [_get_year_digits]: the [DateStyle] is read again from the live
    session. *)
Definition _get_year_digits (self : t) (live : session) (data : bytes) : result Z :=
  if negb (startswith (_get_datestyle (base self) live) (B "P")) then
    DateLoader._get_year_digits (_format self) data
  else
    match nth_error (split_blank data) 4 with
    | Some part => Ok (len part)
    | None => Ok 0
    end.

Definition _raise_error {A} (self : t) (live : session) (data : bytes) (exc : exn)
  : result A :=
  DateLoader._raise_error (_get_year_digits self live data) data exc.

(** [data.find(b".", 19) >= 0] *)
Definition has_micro (data : bytes) : bool := contains "." (skipn 19 data).

Definition load (self : t) (live : session) (data : bytes) : result datetime :=
  let fmt := if has_micro data then _format self else _format_no_micro self in
  match decode_strptime data fmt with
  | Ok dt => Ok dt
  | Raise (ValueError e) => _raise_error self live data (ValueError e)
  | Raise e => Raise e
  end.

End TimestampLoader.

Module TimestamptzLoader.

(** Which function the instance attribute [load] is bound to.  The
    interpreter is Python 3.7 or later, so [__init__] does not rebind it to
    [_load_py36]. *)
Inductive binding := load_default | load_notimpl.

Record t := { super : TimestampLoader.t; load_bound : binding }.

(** [_format_from_context]: the format and, outside the ISO style, the
    rebinding of [self.load]. *)
Definition _format_from_context (self : adapter) (live : session)
  : bytes * binding :=
  let ds := _get_datestyle self live in
  if startswith ds (B "I") then (B "%Y-%m-%d %H:%M:%S.%f%z", load_default)
  else ([], load_notimpl).

Definition init (ctx : bool) (live : session) : t :=
  let a := {| connection := ctx |} in
  let '(f, b) := _format_from_context a live in
  {| super := {| TimestampLoader.base := a;
                 TimestampLoader._format := f;
                 TimestampLoader._format_no_micro := remove_all (B ".%f") f |};
     load_bound := b |}.

(** The class attribute [load]. *)
Definition load (self : t) (live : session) (data : bytes) : result datetime :=
  c <- index_from_end data 3 ;;
  let data := if is_plus_minus c then data ++ B "00" else data in
  TimestampLoader.load (super self) live data.

(** [_load_notimpl]: the [DateStyle] is read again for the message; both
    decodings are strict ASCII. *)
Definition _load_notimpl (self : t) (live : session) (data : bytes)
  : result datetime :=
  style <- decode_ascii (_get_datestyle (TimestampLoader.base (super self)) live) ;;
  text <- decode_ascii data ;;
  Raise (NotImplementedError
           (T "can't parse datetimetz with DateStyle " ++ style ++ T ": " ++ text)).

(** A call [self.load(data)] on an instance, made while the session is
    [live]. *)
Definition call (self : t) (live : session) (data : bytes) : result datetime :=
  match load_bound self with
  | load_default => load self live data
  | load_notimpl => _load_notimpl self live data
  end.

End TimestamptzLoader.

(** ** The time loaders *)

Module TimeLoader.

Definition _format : bytes := B "%H:%M:%S.%f".
Definition _format_no_micro : bytes := remove_all (B ".%f") _format.

Definition _raise_error {A} (data : bytes) (exc : exn) : result A :=
  if startswith data (B "24") then
    text <- decode_ascii data ;;
    Raise (DataError (T "time not supported by Python: " ++ text))
  else Raise exc.

Definition load (data : bytes) : result time :=
  let fmt := if contains "." data then _format else _format_no_micro in
  match decode_strptime data fmt with
  | Ok dt =>
      let t := dt_time dt in
      Ok (mk_time (hour t) (minute t) (second t) (microsecond t) None)
  | Raise (ValueError e) => _raise_error data (ValueError e)
  | Raise e => Raise e
  end.

End TimeLoader.

Module TimeTzLoader.

Definition _format : bytes := B "%H:%M:%S.%f%z".
Definition _format_no_micro : bytes := remove_all (B ".%f") _format.

(** [load]; the interpreter is Python 3.7 or later, so [__init__] leaves it
    bound. *)
Definition load (data : bytes) : result time :=
  c <- index_from_end data 3 ;;
  let data := if is_plus_minus c then data ++ B "00" else data in
  let fmt := if contains "." data then _format else _format_no_micro in
  match decode_strptime data fmt with
  | Ok dt => Ok (dt_time dt)
  | Raise (ValueError e) => TimeLoader._raise_error data (ValueError e)
  | Raise e => Raise e
  end.

End TimeTzLoader.


(** ** Vocabulary of the specification *)

(** A session in which the named parameter has the given value and any other
    is unset. *)
Definition session_with (name value : bytes) : session :=
  fun k => if bytes_eqb k name then Some value else None.

(** An integer written with an explicit sign. *)
Definition explicit_sign (n : Z) : bytes :=
  (if n <? 0 then "-"%char else "+"%char) :: decimal (Z.abs n).

(** The hour field of a time text: what precedes the first colon. *)
Definition hour_field (data : bytes) : bytes := fst (cut ":" data).

(** The year field of a date text in the ISO grammar: what precedes the
    first hyphen. *)
Definition iso_year_field (data : bytes) : bytes := fst (cut "-" data).

(** The date part of a date or timestamp text: what precedes the first
    space. *)
Definition date_token (data : bytes) : bytes :=
  match split_on " " data with
  | p :: _ => p
  | [] => []
  end.

(** The length of the longest part of the date token between separators. *)
Definition longest_part (sep : ascii) (data : bytes) : Z :=
  max_len (split_on sep (date_token data)).

(** The length of the fifth blank-separated word, 0 when there are fewer. *)
Definition fifth_word_len (data : bytes) : Z :=
  match nth_error (split_blank data) 4 with
  | Some part => len part
  | None => 0
  end.

(** The parse [TimeLoader.load] attempts. *)
Definition time_parse (data : bytes) : result datetime :=
  decode_strptime data
    (if contains "." data then TimeLoader._format else TimeLoader._format_no_micro).

(** The text [TimeTzLoader.load] parses: an offset of hours only is
    completed with minutes. *)
Definition with_minutes (data : bytes) (third_from_end : ascii) : bytes :=
  if is_plus_minus third_from_end then data ++ B "00" else data.

(** The parse [TimeTzLoader.load] attempts on the completed text. *)
Definition timetz_parse (data : bytes) : result datetime :=
  decode_strptime data
    (if contains "." data then TimeTzLoader._format else TimeTzLoader._format_no_micro).

(** The parse [TimestampLoader.load] attempts. *)
Definition timestamp_parse (self : TimestampLoader.t) (data : bytes) : result datetime :=
  decode_strptime data
    (if TimestampLoader.has_micro data then TimestampLoader._format self
     else TimestampLoader._format_no_micro self).

(** The two messages of [DateLoader._raise_error]. *)
Definition bc_message (data : bytes) : str :=
  T "Python doesn't support BC date: got " ++ decode_utf8_replace data.

Definition after_9999_message (data : bytes) : str :=
  T "Python date doesn't support years after 9999: got " ++ decode_utf8_replace data.

(** *** Interval texts of the Postgres style

    [N years] [N mons] [N days] [[+-]HH:MM:SS[.ffffff]]: the parts that are
    there, in this order, one space between them. *)

Inductive sgn := sgn_plus | sgn_minus.

Definition sign_bytes (s : option sgn) : bytes :=
  match s with
  | None => []
  | Some sgn_plus => B "+"
  | Some sgn_minus => B "-"
  end.

(** A number with its unit: the sign if written, the digits, and whether the
    unit is in the plural. *)
Record quantity := {
  q_sign : option sgn;
  q_digits : bytes;
  q_plural : bool
}.

Definition number_text (q : quantity) : bytes := sign_bytes (q_sign q) ++ q_digits q.

Definition quantity_val (q : option quantity) : Z :=
  match q with
  | None => 0
  | Some q =>
      match q_sign q with
      | Some sgn_minus => - digits_val (q_digits q)
      | _ => digits_val (q_digits q)
      end
  end.

Definition unit_text (word : string) (q : option quantity) : bytes :=
  match q with
  | None => []
  | Some q =>
      number_text q ++ B " " ++ B word ++ (if q_plural q then B "s" else [])
  end.

(** The time-of-day group. *)
Record clock := {
  c_sign : option sgn;
  c_hours : bytes;
  c_minutes : bytes;
  c_seconds : bytes;
  c_fraction : option bytes
}.

Definition fraction_text (f : option bytes) : bytes :=
  match f with
  | None => []
  | Some f => B "." ++ f
  end.

Definition fraction_digits (f : option bytes) : bytes :=
  match f with
  | None => []
  | Some f => f
  end.

Definition clock_text (c : option clock) : bytes :=
  match c with
  | None => []
  | Some c =>
      sign_bytes (c_sign c) ++ c_hours c ++ B ":" ++ c_minutes c ++ B ":"
      ++ c_seconds c ++ fraction_text (c_fraction c)
  end.

(** Two parts with a space between them when both are there. *)
Definition glue (a b : bytes) : bytes :=
  match a, b with
  | [], _ => b
  | _, [] => a
  | _, _ => a ++ B " " ++ b
  end.

Definition interval_text (y mo d : option quantity) (c : option clock) : bytes :=
  glue (unit_text "year" y)
    (glue (unit_text "mon" mo) (glue (unit_text "day" d) (clock_text c))).

(** A run of digits that [int] converts. *)
Definition int_digits (ds : bytes) : bool :=
  all_digits ds && (Z.of_nat (List.length ds) <=? int_max_str_digits).

Definition wf_quantity (q : option quantity) : bool :=
  match q with
  | None => true
  | Some q => int_digits (q_digits q)
  end.

Definition wf_clock (c : option clock) : bool :=
  match c with
  | None => true
  | Some c =>
      int_digits (c_hours c) && int_digits (c_minutes c) && all_digits (c_seconds c)
      && match c_fraction c with
         | None => true
         | Some f => all_digits f
         end
  end.

(** [3600 * H + 60 * M + S] as Python evaluates it: the integer part is
    converted to a float and added to the float read from the seconds; a
    minus sign negates the sum. *)
Definition clock_seconds (c : option clock) : result float :=
  match c with
  | None => Ok (S754_zero false)
  | Some c =>
      hm <- float_of_int (3600 * digits_val (c_hours c)
                          + 60 * digits_val (c_minutes c)) ;;
      let s := float_add hm
                 (float_of_ratio10
                    (digits_val (c_seconds c ++ fraction_digits (c_fraction c)))
                    (List.length (fraction_digits (c_fraction c)))) in
      Ok (match c_sign c with
          | Some sgn_minus => float_neg s
          | _ => s
          end)
  end.

(** [timedelta(days=days, seconds=seconds)] inside the [try] of
    [IntervalLoader.load]: [OverflowError] becomes [DataError]. *)
Definition timedelta_or_data_error (days : Z) (seconds : float) : result timedelta :=
  match timedelta_new days seconds with
  | Raise (OverflowError e) => Raise (DataError e)
  | r => r
  end.

(** The microseconds [timedelta] counts for a float number of seconds: the
    whole seconds exactly and the fraction times [1e6], rounded half to
    even; none for a float that is not finite. *)
Definition float_micros (x : float) : option Z :=
  match float_modf x with
  | Some (frac, whole) =>
      match float_round (float_add (float_of_Z_raw 0)
                           (float_mul frac (float_of_Z_raw 1000000))) with
      | Some us => Some (whole * 1000000 + us)
      | None => None
      end
  | None => None
  end.

(** What follows a part: nothing, or a space and the next part. *)
Definition follow (next : bytes) : bytes :=
  match next with
  | [] => []
  | _ => B " " ++ next
  end.

(** After a number, the text does not go on as the unit starting with [u0]
    would: it ends, or goes on with neither a digit nor a blank, or with one
    blank followed by something else than [u0]. *)
Definition after_number (u0 : ascii) (rest : bytes) : bool :=
  match rest with
  | [] => true
  | c0 :: rest0 =>
      negb (is_digit c0)
      && (negb (is_space c0)
          || match rest0 with
             | [] => true
             | c1 :: _ => negb (is_space c1) && negb (Ascii.eqb u0 c1)
             end)
  end.

(** A text on which the group of the unit starting with [u0] cannot match:
    the empty text, or a number followed as [after_number] says. *)
Definition later (u0 : ascii) (next : bytes) : Prop :=
  next = [] \/
  exists q rest, all_digits (q_digits q) = true
                 /\ next = number_text q ++ rest /\ after_number u0 rest = true.

(** The groups a quantity and a clock leave behind. *)
Definition quantity_groups (name : string) (q : option quantity) : groups :=
  match q with
  | None => []
  | Some q => [(name, number_text q)]
  end.

Definition clock_groups (c : option clock) : groups :=
  match c with
  | None => []
  | Some c =>
      [("seconds"%string, c_seconds c ++ fraction_text (c_fraction c));
       ("minutes"%string, c_minutes c);
       ("hours"%string, c_hours c)]
      ++ match c_sign c with
         | None => []
         | Some sg => [("hsign"%string, sign_bytes (Some sg))]
         end
  end.

(** The groups of a whole interval text, the last matched first. *)
Definition interval_groups (y mo d : option quantity) (c : option clock) : groups :=
  clock_groups c ++ quantity_groups "days" d
  ++ quantity_groups "months" mo ++ quantity_groups "years" y.

(** *** Date texts of the four styles *)

(** The time of day of a [datetime] parsed from a date alone. *)
Definition no_time : time := mk_time 0 0 0 0 None.

Inductive family := ISO | German | SQL | Postgres.
Inductive ordering := DMY | MDY.

(** The value of [DateStyle] for a family and an ordering, as the server
    reports it. *)
Definition datestyle (f : family) (o : ordering) : bytes :=
  B (match f with
     | ISO => "ISO"
     | German => "German"
     | SQL => "SQL"
     | Postgres => "Postgres"
     end) ++ B ", "
  ++ B (match o with DMY => "DMY" | MDY => "MDY" end).

(** A field written with two digits, and with four. *)
Definition two (n : Z) : bytes := [digit_char (n / 10); digit_char (n mod 10)].

Definition four (n : Z) : bytes :=
  [digit_char (n / 1000); digit_char (n / 100 mod 10);
   digit_char (n / 10 mod 10); digit_char (n mod 10)].

(** A date as the server writes it under a style. *)
Definition date_text (f : family) (o : ordering) (d : date) : bytes :=
  let Y := four (year d) in
  let M := two (month d) in
  let D := two (day d) in
  match f, o with
  | ISO, _ => Y ++ B "-" ++ M ++ B "-" ++ D
  | German, _ => D ++ B "." ++ M ++ B "." ++ Y
  | SQL, DMY => D ++ B "/" ++ M ++ B "/" ++ Y
  | SQL, MDY => M ++ B "/" ++ D ++ B "/" ++ Y
  | Postgres, DMY => D ++ B "-" ++ M ++ B "-" ++ Y
  | Postgres, MDY => M ++ B "-" ++ D ++ B "-" ++ Y
  end.

(** The format the date loader keeps under a style. *)
Definition style_format (f : family) (o : ordering) : bytes :=
  match f, o with
  | ISO, _ => B "%Y-%m-%d"
  | German, _ => B "%d.%m.%Y"
  | SQL, DMY => B "%d/%m/%Y"
  | SQL, MDY => B "%m/%d/%Y"
  | Postgres, DMY => B "%d-%m-%Y"
  | Postgres, MDY => B "%m-%d-%Y"
  end.

(** The groups [strptime] finds in a date: year, month and day, and none of
    the others it looks at. *)
Definition date_groups (g : groups) (Y M D : bytes) : Prop :=
  group g "Y" = Some Y /\ group g "m" = Some M /\ group g "d" = Some D
  /\ group g "b" = None /\ group g "H" = None /\ group g "M" = None
  /\ group g "S" = None /\ group g "f" = None /\ group g "z" = None.

(** A non-negative integer written with exactly [w] digits. *)
Fixpoint fixed (w : nat) (n : Z) : bytes :=
  match w with
  | O => []
  | S w' => fixed w' (n / 10) ++ [digit_char (n mod 10)]
  end.

(** The patterns of [%H], [%M], [%S] and [%f], as [directive] has them. *)
Definition re_H : regex :=
  Group "H" (Alts (Seq (Chr (is_char "2")) (Chr (in_range "0" "3")))
               [Seq (Chr (in_range "0" "1")) D; D]).

Definition re_M : regex := Group "M" (Alts (Seq (Chr (in_range "0" "5")) D) [D]).

Definition re_S : regex :=
  Group "S" (Alts (Seq (Chr (is_char "6")) (Chr (in_range "0" "1")))
               [Seq (Chr (in_range "0" "5")) D; D]).

Definition re_f : regex := Group "f" digits_1_6.

(** The byte [x] does not occur in [b]. *)
Definition avoids (x : ascii) (b : bytes) : bool :=
  forallb (fun c => negb (Ascii.eqb x c)) b.

(** The fields of a date laid out as a style orders and separates them. *)
Definition date_layout (f : family) (o : ordering) (Y M D : bytes) : bytes :=
  match f, o with
  | ISO, _ => Y ++ B "-" ++ M ++ B "-" ++ D
  | German, _ => D ++ B "." ++ M ++ B "." ++ Y
  | SQL, DMY => D ++ B "/" ++ M ++ B "/" ++ Y
  | SQL, MDY => M ++ B "/" ++ D ++ B "/" ++ Y
  | Postgres, DMY => D ++ B "-" ++ M ++ B "-" ++ Y
  | Postgres, MDY => M ++ B "-" ++ D ++ B "-" ++ Y
  end.

(** The separator a style puts between the fields of a date. *)
Definition style_separator (f : family) : ascii :=
  match f with
  | ISO | Postgres => "-"
  | German => "."
  | SQL => "/"
  end%char.

(** [s] occurs in [m], decided. *)
Fixpoint prefixb (p x : str) {struct p} : bool :=
  match p, x with
  | [], _ => true
  | c :: p', d :: x' => N.eqb c d && prefixb p' x'
  | _ :: _, [] => false
  end.

Fixpoint includesb (m s : str) : bool :=
  prefixb s m || match m with [] => false | _ :: m' => includesb m' s end.

(** The byte [0xFF], which no encoding of text contains. *)
Definition xFF : ascii := ascii_of_N 255.

(** * Properties *)

(** ** Byte strings *)

Lemma bytes_eqb_refl (b : bytes) : bytes_eqb b b = true.
Proof. unfold bytes_eqb. destruct (list_eq_dec ascii_dec b b); congruence. Qed.

Lemma bytes_eqb_eq (x y : bytes) : bytes_eqb x y = true <-> x = y.
Proof.
  unfold bytes_eqb. destruct (list_eq_dec ascii_dec x y); split; congruence.
Qed.

Lemma startswith_app (p x : bytes) : startswith (p ++ x) p = true.
Proof.
  induction p as [|c p IH]; simpl; [reflexivity|].
  now rewrite Ascii.eqb_refl, IH.
Qed.

Lemma startswith_app_r (p x y : bytes) :
  startswith x p = true -> startswith (x ++ y) p = true.
Proof.
  revert x. induction p as [|c p IH]; intros [|d x]; simpl; try easy.
  intros H. apply andb_true_iff in H as [H1 H2]. now rewrite H1, IH.
Qed.

Lemma startswith_app_r_false (p x y : bytes) :
  (List.length p <= List.length x)%nat ->
  startswith x p = false -> startswith (x ++ y) p = false.
Proof.
  revert x. induction p as [|c p IH]; intros [|d x]; simpl; try easy; try lia.
  intros L H. apply andb_false_iff in H as [H|H].
  - now rewrite H.
  - rewrite IH by (assumption || lia). apply andb_false_r.
Qed.

Lemma is_ascii_app (x y : bytes) : is_ascii (x ++ y) = is_ascii x && is_ascii y.
Proof. apply forallb_app. Qed.

Lemma str_of_bytes_app (x y : bytes) :
  str_of_bytes (x ++ y) = str_of_bytes x ++ str_of_bytes y.
Proof. apply map_app. Qed.

Lemma includes_mid {A} (pre s post : list A) : includes (pre ++ s ++ post) s.
Proof. now exists pre, post. Qed.

Lemma includes_tail {A} (pre s : list A) : includes (pre ++ s) s.
Proof. exists pre, []. now rewrite app_nil_r. Qed.

(** ** The interval dumper *)

Lemma pct_plus_d_explicit (n : Z) : pct_plus_d n = explicit_sign n.
Proof.
  unfold pct_plus_d, explicit_sign. destruct (Z.ltb_spec n 0).
  - now rewrite Z.abs_neq by lia.
  - now rewrite Z.abs_eq by lia.
Qed.

Lemma TimeDeltaDumper_init_sql (live : session) :
  live (B "IntervalStyle") = Some (B "sql_standard") ->
  TimeDeltaDumper.dump_bound (TimeDeltaDumper.init true live) = TimeDeltaDumper.dump_sql.
Proof.
  intros H. unfold TimeDeltaDumper.init, TimeDeltaDumper.dump_bound.
  now rewrite H, bytes_eqb_refl.
Qed.

(** C7: an interval dumper built while [IntervalStyle] is [sql_standard]
    writes days, seconds and microseconds each with an explicit sign,
    whatever the session says when it is called; for (days=-1, seconds=1)
    the output is [-1 day +1 second +0 microsecond]. *)
Theorem C7_sql_standard_dump (built called : session) (obj : timedelta) :
  built (B "IntervalStyle") = Some (B "sql_standard") ->
  let dumper := TimeDeltaDumper.init true built in
  TimeDeltaDumper.call dumper called obj
  = explicit_sign (td_days obj) ++ B " day "
    ++ explicit_sign (td_seconds obj) ++ B " second "
    ++ explicit_sign (td_microseconds obj) ++ B " microsecond"
  /\ TimeDeltaDumper.call dumper called (mk_timedelta (-1) 1 0)
     = B "-1 day +1 second +0 microsecond".
Proof.
  intros H dumper. unfold TimeDeltaDumper.call. subst dumper.
  rewrite (TimeDeltaDumper_init_sql built H). split.
  - unfold TimeDeltaDumper._dump_sql. now rewrite !pct_plus_d_explicit.
  - reflexivity.
Qed.

Lemma C7_sql_standard_dump_witness :
  let built := session_with (B "IntervalStyle") (B "sql_standard") in
  let called := session_with (B "IntervalStyle") (B "postgres") in
  TimeDeltaDumper.call (TimeDeltaDumper.init true built) called (mk_timedelta 3 7 0)
  = B "+3 day +7 second +0 microsecond".
Proof.
  intros built called.
  exact (proj1 (C7_sql_standard_dump built called (mk_timedelta 3 7 0) eq_refl)).
Defined.


Lemma prefixb_app (s post : str) : prefixb s (s ++ post) = true.
Proof.
  induction s as [|c s IH]; simpl; [reflexivity|].
  now rewrite N.eqb_refl, IH.
Qed.

Lemma includes_includesb (m s : str) : includes m s -> includesb m s = true.
Proof.
  intros (pre & post & ->). induction pre as [|c pre IH].
  - simpl. assert (E : forall m, includesb m s = (prefixb s m
        || match m with [] => false | _ :: m' => includesb m' s end))
      by (now intros [|? ?]).
    now rewrite E, prefixb_app.
  - cbn [app includesb]. rewrite IH. apply orb_true_r.
Qed.

(** ** The matcher *)

Lemma match_opt_total {R} (a : regex) (s : bytes) (g : groups) (k : @cont R) :
  k s g <> None -> match_re (Opt a) s g k <> None.
Proof. simpl. destruct (match_re a s g k); congruence. Qed.

Lemma match_seq_opt_total {R} (a b : regex) (s : bytes) (g : groups) (k : @cont R) :
  (forall s' g', match_re b s' g' k <> None) ->
  match_re (Seq (Opt a) b) s g k <> None.
Proof.
  intros H. change (match_re (Seq (Opt a) b) s g k)
    with (match_re (Opt a) s g (fun s' g' => match_re b s' g' k)).
  apply match_opt_total. apply H.
Qed.

(** Every group of the interval pattern is optional, so the pattern matches
    at the start of any input. *)
Lemma re_interval_always_matches (data : bytes) :
  re_match IntervalLoader._re_interval data <> None.
Proof.
  unfold re_match, IntervalLoader._re_interval, IntervalLoader.unit_group.
  cbn [Seqs].
  apply match_seq_opt_total; intros s1 g1.
  apply match_seq_opt_total; intros s2 g2.
  apply match_seq_opt_total; intros s3 g3.
  apply match_seq_opt_total; intros s4 g4.
  discriminate.
Qed.

(** ** The interval loader: texts that are not intervals *)

(** C3 (the code departs from it): the interval pattern matches every input,
    so [load] never takes the malformed-interval branch; a text with none of
    the groups, such as [foo], is decoded to the zero duration. *)
Theorem C3_unmatched_text_is_zero :
  (forall data, re_match IntervalLoader._re_interval data <> None)
  /\ IntervalLoader.load (B "foo") = Ok (mk_timedelta 0 0 0)
  /\ IntervalLoader.load [] = Ok (mk_timedelta 0 0 0).
Proof.
  split; [exact re_interval_always_matches|]. split; vm_compute; reflexivity.
Qed.

(** ** Routing to the not-implemented path *)

Lemma decode_ascii_ok (b : bytes) :
  is_ascii b = true -> decode_ascii b = Ok (str_of_bytes b).
Proof. intros H. unfold decode_ascii. now rewrite H. Qed.

Lemma decode_ascii_fail (b : bytes) :
  is_ascii b = false -> decode_ascii b = Raise (ValueError VE_unicode_decode).
Proof. intros H. unfold decode_ascii. now rewrite H. Qed.

(** A timestamp-with-zone loader built under a [DateStyle] that does not
    start with [I] answers every ASCII input with [NotImplementedError],
    provided the style read at the call is ASCII as well. *)
Lemma TimestamptzLoader_notimpl_ascii (ctx : bool) (built called : session)
    (data : bytes) :
  startswith (_get_datestyle {| connection := ctx |} built) (B "I") = false ->
  is_ascii (_get_datestyle {| connection := ctx |} called) = true ->
  is_ascii data = true ->
  TimestamptzLoader.call (TimestamptzLoader.init ctx built) called data
  = Raise (NotImplementedError
             (T "can't parse datetimetz with DateStyle "
              ++ str_of_bytes (_get_datestyle {| connection := ctx |} called)
              ++ T ": " ++ str_of_bytes data)).
Proof.
  intros Hb Hs Hd.
  unfold TimestamptzLoader.call, TimestamptzLoader.init,
    TimestamptzLoader._format_from_context.
  rewrite Hb. cbn [TimestamptzLoader.load_bound].
  unfold TimestamptzLoader._load_notimpl.
  cbn [TimestamptzLoader.super TimestampLoader.base].
  now rewrite (decode_ascii_ok _ Hs), (decode_ascii_ok _ Hd).
Qed.

(** The same loader on an input that is not ASCII: building the message
    fails first. *)
Lemma TimestamptzLoader_notimpl_not_ascii (ctx : bool) (built called : session)
    (data : bytes) :
  startswith (_get_datestyle {| connection := ctx |} built) (B "I") = false ->
  is_ascii (_get_datestyle {| connection := ctx |} called) = true ->
  is_ascii data = false ->
  TimestamptzLoader.call (TimestamptzLoader.init ctx built) called data
  = Raise (ValueError VE_unicode_decode).
Proof.
  intros Hb Hs Hd.
  unfold TimestamptzLoader.call, TimestamptzLoader.init,
    TimestamptzLoader._format_from_context.
  rewrite Hb. cbn [TimestamptzLoader.load_bound].
  unfold TimestamptzLoader._load_notimpl.
  cbn [TimestamptzLoader.super TimestampLoader.base].
  now rewrite (decode_ascii_ok _ Hs), (decode_ascii_fail _ Hd).
Qed.

(** C6 (the code departs from it): under the German style the
    timestamp-with-zone loader is routed to [_load_notimpl], yet on the
    one-byte input [0xFF] the call ends in the decoding error of the message,
    not in [NotImplementedError]; on the ASCII input [ab] it does raise
    [NotImplementedError]. *)
Theorem C6_notimpl_depends_on_input :
  let german := session_with (B "DateStyle") (B "German, DMY") in
  let loader := TimestamptzLoader.init true german in
  TimestamptzLoader.load_bound loader = TimestamptzLoader.load_notimpl
  /\ TimestamptzLoader.call loader german [xFF] = Raise (ValueError VE_unicode_decode)
  /\ TimestamptzLoader.call loader german (B "ab")
     = Raise (NotImplementedError (T "can't parse datetimetz with DateStyle German, DMY: ab")).
Proof. repeat split; vm_compute; reflexivity. Qed.

(** The live interval style as [_load_notimpl] names it. *)
Lemma IntervalLoader_init_no_connection (live : session) :
  IntervalLoader.load_bound (IntervalLoader.init false live) = IntervalLoader.load_default.
Proof. reflexivity. Qed.

Lemma IntervalLoader_init_postgres (live : session) :
  live (B "IntervalStyle") = Some (B "postgres") ->
  IntervalLoader.load_bound (IntervalLoader.init true live) = IntervalLoader.load_default.
Proof.
  intros H. unfold IntervalLoader.init, IntervalLoader.load_bound.
  now rewrite H, bytes_eqb_refl.
Qed.

Lemma IntervalLoader_init_other (live : session) :
  live (B "IntervalStyle") <> Some (B "postgres") ->
  IntervalLoader.load_bound (IntervalLoader.init true live) = IntervalLoader.load_notimpl.
Proof.
  intros H. unfold IntervalLoader.init, IntervalLoader.load_bound.
  destruct (live (B "IntervalStyle")) as [v|]; [|reflexivity].
  destruct (bytes_eqb v (B "postgres")) eqn:E; [|reflexivity].
  apply bytes_eqb_eq in E. congruence.
Qed.

(** An interval loader built under a live style other than [postgres]
    answers every ASCII input with [NotImplementedError] naming the style
    read at the call. *)
Lemma IntervalLoader_notimpl_ascii (built called : session) (style data : bytes) :
  built (B "IntervalStyle") <> Some (B "postgres") ->
  called (B "IntervalStyle") = Some style -> style <> [] ->
  is_ascii style = true -> is_ascii data = true ->
  IntervalLoader.call (IntervalLoader.init true built) called data
  = Raise (NotImplementedError
             (T "can't parse interval with IntervalStyle " ++ str_of_bytes style
              ++ T ": " ++ str_of_bytes data)).
Proof.
  intros Hb Hc Hne Hs Hd. unfold IntervalLoader.call.
  rewrite (IntervalLoader_init_other built Hb).
  unfold IntervalLoader._load_notimpl, IntervalLoader.init.
  cbn [IntervalLoader.base connection]. rewrite Hc.
  destruct style as [|c v]; [congruence|].
  now rewrite (decode_ascii_ok _ Hs), (decode_ascii_ok _ Hd).
Qed.

(** C8 (the code departs from it): without a connection, or with the style
    [postgres], the call is [load]; under [sql_standard] the loader is routed
    to [_load_notimpl], which names the live style on the ASCII input
    [1-2], yet on the one-byte input [0xFF] the call ends in the decoding
    error of the message, not in [NotImplementedError]. *)
Theorem C8_interval_style_routing :
  (forall built called data,
      IntervalLoader.call (IntervalLoader.init false built) called data
      = IntervalLoader.load data)
  /\ (forall called data,
      IntervalLoader.call
        (IntervalLoader.init true (session_with (B "IntervalStyle") (B "postgres")))
        called data
      = IntervalLoader.load data)
  /\ (let sql := session_with (B "IntervalStyle") (B "sql_standard") in
      let loader := IntervalLoader.init true sql in
      IntervalLoader.load_bound loader = IntervalLoader.load_notimpl
      /\ IntervalLoader.call loader sql (B "1-2")
         = Raise (NotImplementedError
                    (T "can't parse interval with IntervalStyle sql_standard: 1-2"))
      /\ IntervalLoader.call loader sql [xFF] = Raise (ValueError VE_unicode_decode)).
Proof.
  split; [reflexivity|]. split; [reflexivity|].
  repeat split; vm_compute; reflexivity.
Qed.

(** ** Error messages and the input text *)

(** C9 (the code departs from it): the time loader decodes the input
    strictly for its message, so on [24] followed by the byte [0xFF] the call
    ends in a decoding error instead of a [DataError]; and the [DataError] of
    an interval out of range carries the text of the overflow only, not the
    input. *)
Theorem C9_messages_without_input :
  TimeLoader.load ("2" :: "4" :: [xFF])%char = Raise (ValueError VE_unicode_decode)
  /\ IntervalLoader.load (B "1000000000 days")
     = Raise (DataError (T "days=1000000000; must have magnitude <= 999999999"))
  /\ ~ includes (T "days=1000000000; must have magnitude <= 999999999")
         (T "1000000000 days").
Proof.
  split; [vm_compute; reflexivity|]. split; [vm_compute; reflexivity|].
  intros H. apply includes_includesb in H. vm_compute in H. discriminate.
Qed.

(** ** Inputs shorter than three bytes *)

Lemma index_from_end_short (data : bytes) :
  (List.length data < 3)%nat -> index_from_end data 3 = Raise IndexError.
Proof.
  intros H. unfold index_from_end.
  replace (nth_error (rev data) (3 - 1)) with (@None ascii); [reflexivity|].
  symmetry. apply nth_error_None. rewrite length_rev. simpl. lia.
Qed.

(** C10: on an input of fewer than three bytes the [load] of the
    time-with-zone loader and the [load] of the timestamp-with-zone loader
    raise [IndexError], and so does a call on any timestamp-with-zone
    instance whose [load] is still bound to it. *)
Theorem C10_short_input_index_error (data : bytes) :
  (List.length data < 3)%nat ->
  TimeTzLoader.load data = Raise IndexError
  /\ (forall self live, TimestamptzLoader.load self live data = Raise IndexError)
  /\ (forall self live,
         TimestamptzLoader.load_bound self = TimestamptzLoader.load_default ->
         TimestamptzLoader.call self live data = Raise IndexError).
Proof.
  intros H. pose proof (index_from_end_short data H) as E. repeat split.
  - unfold TimeTzLoader.load. now rewrite E.
  - intros self live. unfold TimestamptzLoader.load. now rewrite E.
  - intros self live Hb. unfold TimestamptzLoader.call, TimestamptzLoader.load.
    now rewrite Hb, E.
Qed.

Lemma C10_short_input_index_error_witness :
  TimeTzLoader.load (B "+2") = Raise IndexError
  /\ TimestamptzLoader.call
       (TimestamptzLoader.init true (session_with (B "DateStyle") (B "ISO, DMY")))
       (session_with (B "DateStyle") (B "ISO, DMY")) (B "+2") = Raise IndexError.
Proof.
  assert (H : (List.length (B "+2") < 3)%nat) by (simpl; lia).
  destruct (C10_short_input_index_error (B "+2") H) as (H1 & _ & H3).
  split; [exact H1|]. apply H3. reflexivity.
Defined.


(** ** Parse failures of the time loaders *)

Lemma index_from_end_length (data : bytes) (c : ascii) :
  index_from_end data 3 = Ok c -> (3 <= List.length data)%nat.
Proof.
  unfold index_from_end. destruct (nth_error (rev data) (3 - 1)) eqn:E; [|discriminate].
  intros _. assert (H : nth_error (rev data) (3 - 1) <> None) by congruence.
  apply nth_error_Some in H. rewrite length_rev in H. simpl in H. lia.
Qed.

Lemma TimeLoader_raise_error_24 {A} (data : bytes) (exc : exn) :
  startswith data (B "24") = true -> is_ascii data = true ->
  @TimeLoader._raise_error A data exc
  = Raise (DataError (T "time not supported by Python: " ++ str_of_bytes data)).
Proof.
  intros H1 H2. unfold TimeLoader._raise_error.
  now rewrite H1, (decode_ascii_ok _ H2).
Qed.

Lemma TimeLoader_raise_error_other {A} (data : bytes) (exc : exn) :
  startswith data (B "24") = false -> @TimeLoader._raise_error A data exc = Raise exc.
Proof. intros H. unfold TimeLoader._raise_error. now rewrite H. Qed.

Lemma with_minutes_startswith (data : bytes) (c : ascii) :
  (3 <= List.length data)%nat ->
  startswith (with_minutes data c) (B "24") = startswith data (B "24").
Proof.
  intros L. unfold with_minutes. destruct (is_plus_minus c); [|reflexivity].
  destruct (startswith data (B "24")) eqn:E.
  - now apply startswith_app_r.
  - apply startswith_app_r_false; [simpl; lia|assumption].
Qed.

Lemma with_minutes_ascii (data : bytes) (c : ascii) :
  is_ascii (with_minutes data c) = is_ascii data.
Proof.
  unfold with_minutes. destruct (is_plus_minus c); [|reflexivity].
  rewrite is_ascii_app. change (is_ascii (B "00")) with true. apply andb_true_r.
Qed.

(** C5 as stated fails: the text [240:00:00] does not parse, its hour field
    is [240] and not [24], yet the loader raises [DataError] instead of the
    parse error. *)
Lemma C5_counterexample :
  ~ (forall data e,
        time_parse data = Raise (ValueError e) ->
        ((exists m, TimeLoader.load data = Raise (DataError m))
         <-> hour_field data = B "24")).
Proof.
  intros H.
  specialize (H (B "240:00:00")
                (VE_no_match (B "240:00:00") TimeLoader._format_no_micro) eq_refl).
  destruct H as [H _].
  assert (E : hour_field (B "240:00:00") = B "24").
  { apply H. eexists. vm_compute. reflexivity. }
  vm_compute in E. discriminate.
Qed.

(** C5 (amended): when the parse of a time or time-with-zone text fails, a
    text that starts with the two bytes [24] and is ASCII gets a [DataError]
    whose message ends with the text; a text that does not start with [24]
    gets the parse error itself. *)
Theorem C5_time_parse_failure (data : bytes) :
  (forall e,
      time_parse data = Raise (ValueError e) ->
      (startswith data (B "24") = true -> is_ascii data = true ->
       TimeLoader.load data
       = Raise (DataError (T "time not supported by Python: " ++ str_of_bytes data)))
      /\ (startswith data (B "24") = false ->
          TimeLoader.load data = Raise (ValueError e)))
  /\ (forall c e,
      index_from_end data 3 = Ok c ->
      timetz_parse (with_minutes data c) = Raise (ValueError e) ->
      (startswith data (B "24") = true -> is_ascii data = true ->
       TimeTzLoader.load data
       = Raise (DataError (T "time not supported by Python: "
                           ++ str_of_bytes (with_minutes data c))))
      /\ (startswith data (B "24") = false ->
          TimeTzLoader.load data = Raise (ValueError e))).
Proof.
  split.
  - intros e P. unfold time_parse in P. unfold TimeLoader.load. rewrite P. split.
    + apply TimeLoader_raise_error_24.
    + apply TimeLoader_raise_error_other.
  - intros c e I P. unfold timetz_parse in P. unfold TimeTzLoader.load.
    rewrite I. cbn [bind]. cbv zeta.
    change (if is_plus_minus c then data ++ B "00" else data)
      with (with_minutes data c).
    rewrite P.
    pose proof (index_from_end_length data c I) as L. split.
    + intros S A. apply TimeLoader_raise_error_24.
      * now rewrite with_minutes_startswith.
      * now rewrite with_minutes_ascii.
    + intros S. apply TimeLoader_raise_error_other.
      now rewrite with_minutes_startswith.
Qed.

Lemma C5_time_parse_failure_witness :
  TimeLoader.load (B "24:00:00")
  = Raise (DataError (T "time not supported by Python: 24:00:00"))
  /\ TimeLoader.load (B "12:61:00")
     = Raise (ValueError (VE_no_match (B "12:61:00") (B "%H:%M:%S")))
  /\ TimeTzLoader.load (B "24:00:00+02")
     = Raise (DataError (T "time not supported by Python: 24:00:00+0200")).
Proof.
  split; [|split].
  - exact (proj1 (proj1 (C5_time_parse_failure (B "24:00:00")) _ eq_refl)
             eq_refl eq_refl).
  - exact (proj2 (proj1 (C5_time_parse_failure (B "12:61:00")) _ eq_refl) eq_refl).
  - exact (proj1 (proj2 (C5_time_parse_failure (B "24:00:00+02"))
                    "+"%char (VE_no_match (B "24:00:00+0200") (B "%H:%M:%S%z"))
                    eq_refl eq_refl)
             eq_refl eq_refl).
Defined.


(** ** Parse failures of the date and timestamp loaders *)

Lemma DateLoader_get_year_digits (fmt : bytes) (sep : ascii) (data : bytes) :
  nth_error fmt 2 = Some sep ->
  DateLoader._get_year_digits fmt data = Ok (longest_part sep data).
Proof. intros H. unfold DateLoader._get_year_digits. now rewrite H. Qed.

Lemma DateLoader_raise_error {A} (n : Z) (data : bytes) (exc : exn) :
  @DateLoader._raise_error A (Ok n) data exc
  = if endswith data (B "BC") then Raise (DataError (bc_message data))
    else if n >? 4 then Raise (DataError (after_9999_message data))
    else Raise exc.
Proof. reflexivity. Qed.

(** Every format [DateLoader.__init__] can store has a separator at
    position 2. *)
Lemma DateLoader_init_sep (ctx : bool) (built : session) (self : DateLoader.t) :
  DateLoader.init ctx built = Ok self ->
  exists sep, nth_error (DateLoader._format self) 2 = Some sep.
Proof.
  unfold DateLoader.init, DateLoader._format_from_context, unexpected_datestyle.
  set (ds := _get_datestyle _ built).
  destruct (startswith ds (B "I")); [intros [= <-]; now eexists|].
  destruct (startswith ds (B "G")); [intros [= <-]; now eexists|].
  destruct (startswith ds (B "S"));
    [destruct (endswith ds (B "DMY")); intros [= <-]; now eexists|].
  destruct (startswith ds (B "P"));
    [destruct (endswith ds (B "DMY")); intros [= <-]; now eexists|].
  destruct (decode_ascii ds); discriminate.
Qed.

Lemma TimestampLoader_init_sep (ctx : bool) (built : session) (self : TimestampLoader.t) :
  TimestampLoader.init ctx built = Ok self ->
  exists sep, nth_error (TimestampLoader._format self) 2 = Some sep.
Proof.
  unfold TimestampLoader.init, TimestampLoader._format_from_context,
    unexpected_datestyle.
  set (ds := _get_datestyle _ built).
  destruct (startswith ds (B "I")); [intros [= <-]; now eexists|].
  destruct (startswith ds (B "G")); [intros [= <-]; now eexists|].
  destruct (startswith ds (B "S"));
    [destruct (endswith ds (B "DMY")); intros [= <-]; now eexists|].
  destruct (startswith ds (B "P"));
    [destruct (endswith ds (B "DMY")); intros [= <-]; now eexists|].
  destruct (decode_ascii ds); discriminate.
Qed.

(** C4 as stated fails: under the ISO style the text [2020-01-0100000] does
    not parse, does not end with [BC] and has a year field of four digits,
    yet the loader raises the [DataError] about years after 9999 instead of
    the parse error. *)
Lemma C4_counterexample :
  ~ (forall self data e,
        DateLoader.init true (session_with (B "DateStyle") (B "ISO, DMY")) = Ok self ->
        decode_strptime data (DateLoader._format self) = Raise (ValueError e) ->
        endswith data (B "BC") = false ->
        len (iso_year_field data) <= 4 ->
        DateLoader.load self data = Raise (ValueError e)).
Proof.
  intros H.
  specialize (H {| DateLoader.base := {| connection := true |};
                   DateLoader._format := B "%Y-%m-%d" |}
                (B "2020-01-0100000") (VE_unconverted (B "00000"))
                eq_refl eq_refl eq_refl).
  assert (L : len (iso_year_field (B "2020-01-0100000")) <= 4) by (vm_compute; discriminate).
  specialize (H L). vm_compute in H. discriminate.
Qed.

(** C4 (amended): when the parse of a date or timestamp text fails, a text
    ending with [BC] gets the [DataError] about BC dates; otherwise, when the
    longest part of the date token between the separators of the format
    (under a live Postgres style, for timestamps: the fifth blank-separated
    word) is longer than four bytes, it gets the [DataError] about years
    after 9999; otherwise it gets the parse error itself. *)
Theorem C4_date_parse_failure (data : bytes) (e : value_error) (sep : ascii) :
  (forall self,
      nth_error (DateLoader._format self) 2 = Some sep ->
      decode_strptime data (DateLoader._format self) = Raise (ValueError e) ->
      DateLoader.load self data
      = if endswith data (B "BC") then Raise (DataError (bc_message data))
        else if longest_part sep data >? 4
             then Raise (DataError (after_9999_message data))
             else Raise (ValueError e))
  /\ (forall self called,
      nth_error (TimestampLoader._format self) 2 = Some sep ->
      timestamp_parse self data = Raise (ValueError e) ->
      TimestampLoader.load self called data
      = if endswith data (B "BC") then Raise (DataError (bc_message data))
        else if (if startswith (_get_datestyle (TimestampLoader.base self) called) (B "P")
                 then fifth_word_len data else longest_part sep data) >? 4
             then Raise (DataError (after_9999_message data))
             else Raise (ValueError e)).
Proof.
  split.
  - intros self S P. unfold DateLoader.load. rewrite P.
    rewrite (DateLoader_get_year_digits _ sep data S).
    apply DateLoader_raise_error.
  - intros self called S P. unfold timestamp_parse in P.
    unfold TimestampLoader.load. rewrite P.
    unfold TimestampLoader._raise_error, TimestampLoader._get_year_digits.
    destruct (startswith (_get_datestyle (TimestampLoader.base self) called) (B "P")).
    + cbn [negb]. unfold fifth_word_len.
      destruct (nth_error (split_blank data) 4); apply DateLoader_raise_error.
    + cbn [negb]. rewrite (DateLoader_get_year_digits _ sep data S).
      apply DateLoader_raise_error.
Qed.

Lemma C4_date_parse_failure_witness :
  let iso := session_with (B "DateStyle") (B "ISO, DMY") in
  let loader := {| DateLoader.base := {| connection := true |};
                   DateLoader._format := B "%Y-%m-%d" |} in
  let pg := session_with (B "DateStyle") (B "Postgres, MDY") in
  let stamps := {| TimestampLoader.base := {| connection := true |};
                   TimestampLoader._format := B "%a %b %d %H:%M:%S.%f %Y";
                   TimestampLoader._format_no_micro := B "%a %b %d %H:%M:%S %Y" |} in
  DateLoader.init true iso = Ok loader
  /\ DateLoader.load loader (B "0044-03-15 BC")
     = Raise (DataError (T "Python doesn't support BC date: got 0044-03-15 BC"))
  /\ DateLoader.load loader (B "2020-13-01")
     = Raise (ValueError (VE_no_match (B "2020-13-01") (B "%Y-%m-%d")))
  /\ TimestampLoader.init true pg = Ok stamps
  /\ TimestampLoader.load stamps pg (B "Wed Jan 01 10:11:12 20200")
     = Raise (DataError (T "Python date doesn't support years after 9999: got Wed Jan 01 10:11:12 20200")).
Proof.
  intros iso loader pg stamps. split; [reflexivity|]. split; [|split; [|split]].
  - exact (proj1 (C4_date_parse_failure (B "0044-03-15 BC")
                    (VE_unconverted (B " BC")) "-"%char) loader eq_refl eq_refl).
  - exact (proj1 (C4_date_parse_failure (B "2020-13-01")
                    (VE_no_match (B "2020-13-01") (B "%Y-%m-%d")) "-"%char)
             loader eq_refl eq_refl).
  - reflexivity.
  - exact (proj2 (C4_date_parse_failure (B "Wed Jan 01 10:11:12 20200")
                    (VE_unconverted (B "0")) " "%char)
             stamps pg eq_refl eq_refl).
Defined.

(** The messages of [DateLoader._raise_error] end with the input, decoded
    with replacement; for an ASCII input that is the input itself. *)
Lemma decode_utf8_replace_ascii (b : bytes) :
  is_ascii b = true -> decode_utf8_replace b = str_of_bytes b.
Proof.
  unfold decode_utf8_replace. induction b as [|c b IH]; [reflexivity|].
  intros H. simpl in H. apply andb_true_iff in H as [Hc Hb].
  cbn [List.length utf8_replace_fuel]. unfold is_ascii_byte in Hc. rewrite Hc.
  cbn [str_of_bytes map]. f_equal. now apply IH.
Qed.

Lemma DateLoader_messages_include_input (data : bytes) :
  includes (bc_message data) (decode_utf8_replace data)
  /\ includes (after_9999_message data) (decode_utf8_replace data).
Proof. split; apply includes_tail. Qed.

(** ** The matcher on runs of a character class *)

(** The input does not go on with a character of the class. *)
Definition stops (p : ascii -> bool) (rest : bytes) : bool :=
  match rest with
  | [] => true
  | c :: _ => negb (p c)
  end.

Section MatcherFacts.
Context {R : Type}.
Implicit Types (k : @cont R) (s rest : bytes) (g : groups).

Lemma match_seq (a b : regex) s g k :
  match_re (Seq a b) s g k = match_re a s g (fun s' g' => match_re b s' g' k).
Proof. reflexivity. Qed.

Lemma match_eps s g k : match_re Eps s g k = k s g.
Proof. reflexivity. Qed.

Lemma match_chr_take p c s g k :
  p c = true -> match_re (Chr p) (c :: s) g k = k s g.
Proof. intros H. simpl. now rewrite H. Qed.

Lemma match_chr_refuse p c s g k :
  p c = false -> match_re (Chr p) (c :: s) g k = None.
Proof. intros H. simpl. now rewrite H. Qed.

Lemma match_star_stop p rest g k :
  stops p rest = true -> match_star p rest g k = k rest g.
Proof.
  destruct rest as [|c rest]; simpl; [reflexivity|].
  intros H. apply negb_true_iff in H. now rewrite H.
Qed.

(** A greedy run that takes the whole class prefix succeeds with whatever
    the continuation gives there. *)
Lemma match_star_greedy p ds rest g k r :
  forallb p ds = true -> stops p rest = true ->
  k rest g = Some r -> match_star p (ds ++ rest) g k = Some r.
Proof.
  intros Hd Hs Hk. induction ds as [|c ds IH].
  - simpl. now rewrite match_star_stop.
  - simpl in Hd. apply andb_true_iff in Hd as [Hc Hd].
    cbn [app match_star]. now rewrite Hc, (IH Hd).
Qed.

(** When the continuation accepts nothing that starts inside the class, the
    run can only take the whole prefix. *)
Lemma match_star_exact p ds rest g k :
  forallb p ds = true -> stops p rest = true ->
  (forall c s g', p c = true -> k (c :: s) g' = None) ->
  match_star p (ds ++ rest) g k = k rest g.
Proof.
  intros Hd Hs Hk. induction ds as [|c ds IH].
  - simpl. now rewrite match_star_stop.
  - simpl in Hd. apply andb_true_iff in Hd as [Hc Hd].
    cbn [app match_star]. rewrite Hc, (IH Hd).
    destruct (k rest g); [reflexivity|]. now apply Hk.
Qed.

Lemma match_plus_greedy p ds rest g k r :
  ds <> [] -> forallb p ds = true -> stops p rest = true ->
  k rest g = Some r -> match_re (Plus p) (ds ++ rest) g k = Some r.
Proof.
  intros Hne Hd Hs Hk. destruct ds as [|c ds]; [congruence|].
  simpl in Hd. apply andb_true_iff in Hd as [Hc Hd].
  unfold Plus. cbn [app match_re]. rewrite Hc.
  now apply match_star_greedy.
Qed.

Lemma match_plus_exact p ds rest g k :
  ds <> [] -> forallb p ds = true -> stops p rest = true ->
  (forall c s g', p c = true -> k (c :: s) g' = None) ->
  match_re (Plus p) (ds ++ rest) g k = k rest g.
Proof.
  intros Hne Hd Hs Hk. destruct ds as [|c ds]; [congruence|].
  simpl in Hd. apply andb_true_iff in Hd as [Hc Hd].
  unfold Plus. cbn [app match_re]. rewrite Hc.
  now apply match_star_exact.
Qed.

Lemma match_plus_stop p rest g k :
  stops p rest = true -> match_re (Plus p) rest g k = None.
Proof.
  destruct rest as [|c rest]; [reflexivity|]. simpl.
  intros H. apply negb_true_iff in H. now rewrite H.
Qed.

Lemma match_opt_skip (a : regex) s g k :
  match_re a s g k = None -> match_re (Opt a) s g k = k s g.
Proof. intros H. simpl. now rewrite H. Qed.

Lemma match_opt_take (a : regex) s g k r :
  match_re a s g k = Some r -> match_re (Opt a) s g k = Some r.
Proof. intros H. simpl. now rewrite H. Qed.

(** A group records what its pattern consumed. *)
Lemma match_group_prefix name (a : regex) pre rest g k r :
  (forall k', k' rest g = Some r -> match_re a (pre ++ rest) g k' = Some r) ->
  k rest ((name, pre) :: g) = Some r ->
  match_re (Group name a) (pre ++ rest) g k = Some r.
Proof.
  intros Ha Hk. cbn [match_re]. apply Ha.
  rewrite length_app, Nat.add_sub, firstn_app, Nat.sub_diag, firstn_all.
  simpl. now rewrite app_nil_r.
Qed.

End MatcherFacts.


(** ** Character classes *)

Ltac by_cases_on_char c :=
  destruct c as [[] [] [] [] [] [] [] []]; vm_compute; congruence.

Lemma digit_not_sign c : is_digit c = true -> is_sign c = false.
Proof. by_cases_on_char c. Qed.

Lemma digit_not_space c : is_digit c = true -> is_space c = false.
Proof. by_cases_on_char c. Qed.

Lemma digit_not_colon c : is_digit c = true -> is_char ":" c = false.
Proof. by_cases_on_char c. Qed.

Lemma digit_not_dot c : is_digit c = true -> is_char "." c = false.
Proof. by_cases_on_char c. Qed.

Lemma all_digits_run ds :
  all_digits ds = true -> ds <> [] /\ forallb is_digit ds = true.
Proof. destruct ds; [discriminate|]. intros H. split; [discriminate|exact H]. Qed.

Lemma stops_digits_then p ds rest :
  all_digits ds = true -> (forall c, is_digit c = true -> p c = false) ->
  stops p (ds ++ rest) = true.
Proof.
  destruct ds as [|c ds]; [discriminate|]. simpl. intros H Hp.
  apply andb_true_iff in H as [H _]. now rewrite (Hp c H).
Qed.

Lemma firstn_consumed {A} (pre rest : list A) :
  firstn (List.length (pre ++ rest) - List.length rest) (pre ++ rest) = pre.
Proof.
  rewrite length_app, Nat.add_sub, firstn_app, Nat.sub_diag, firstn_all.
  simpl. apply app_nil_r.
Qed.

(** ** The interval pattern on its own texts *)

Section IntervalPattern.
Context {R : Type}.
Implicit Types (k : @cont R) (rest next : bytes) (g : groups).

Lemma match_lit w rest g k : match_re (Lit w) (w ++ rest) g k = k rest g.
Proof.
  induction w as [|c w IH]; [reflexivity|].
  cbn [Lit app match_re]. unfold is_char at 1. now rewrite Ascii.eqb_refl.
Qed.

(** A signed number is taken whole when the text stops being digits after
    it. *)
Lemma match_signed_number q rest g k r :
  all_digits (q_digits q) = true -> stops is_digit rest = true ->
  k rest g = Some r ->
  match_re IntervalLoader.signed_number (number_text q ++ rest) g k = Some r.
Proof.
  intros Hq Hs Hk. apply all_digits_run in Hq as [Hne Hd].
  unfold IntervalLoader.signed_number, number_text. rewrite match_seq.
  destruct (q_sign q) as [[|]|]; cbn [sign_bytes B list_ascii_of_string app].
  - apply match_opt_take. cbn [match_re]. change (is_sign "+") with true.
    cbv iota. now apply match_plus_greedy.
  - apply match_opt_take. cbn [match_re]. change (is_sign "-") with true.
    cbv iota. now apply match_plus_greedy.
  - rewrite match_opt_skip; [now apply match_plus_greedy|].
    destruct (q_digits q) as [|c ds]; [congruence|].
    simpl in Hd. apply andb_true_iff in Hd as [Hc _].
    cbn [app match_re]. now rewrite (digit_not_sign c Hc).
Qed.

(** A signed number followed by what the continuation refuses cannot be
    matched in any other way. *)
Lemma match_signed_number_none q rest g k :
  all_digits (q_digits q) = true -> stops is_digit rest = true ->
  (forall c s g', is_digit c = true -> k (c :: s) g' = None) ->
  k rest g = None ->
  match_re IntervalLoader.signed_number (number_text q ++ rest) g k = None.
Proof.
  intros Hq Hs Hk Hr. apply all_digits_run in Hq as [Hne Hd].
  unfold IntervalLoader.signed_number, number_text. rewrite match_seq.
  destruct (q_sign q) as [[|]|]; cbn [sign_bytes B list_ascii_of_string app].
  - cbn [match_re]. change (is_sign "+") with true. cbv iota.
    rewrite match_plus_exact by assumption. rewrite Hr.
    change (is_digit "+") with false. reflexivity.
  - cbn [match_re]. change (is_sign "-") with true. cbv iota.
    rewrite match_plus_exact by assumption. rewrite Hr.
    change (is_digit "-") with false. reflexivity.
  - rewrite match_opt_skip.
    + now rewrite match_plus_exact.
    + destruct (q_digits q) as [|c ds]; [congruence|].
      simpl in Hd. apply andb_true_iff in Hd as [Hc _].
      cbn [app match_re]. now rewrite (digit_not_sign c Hc).
Qed.

(** The text of a unit that is there: number, blank, word, plural. *)
Lemma unit_group_present name word u0 w' q next g k r :
  B word = u0 :: w' -> is_space u0 = false ->
  all_digits (q_digits q) = true -> stops is_space next = true ->
  k next ((name, number_text q) :: g) = Some r ->
  match_re (IntervalLoader.unit_group name word)
    (unit_text word (Some q) ++ follow next) g k = Some r.
Proof.
  intros Hw Hu Hq Hn Hk. unfold IntervalLoader.unit_group, unit_text.
  apply match_opt_take. cbn [Seqs]. rewrite match_seq, <- !app_assoc.
  apply match_group_prefix.
  - intros k' Hk'. now apply match_signed_number.
  - rewrite match_seq. apply (match_plus_greedy is_space (B " ")); try easy.
    { rewrite Hw. simpl. now rewrite Hu. }
    rewrite match_seq, match_lit, match_seq.
    assert (Hsp : match_re (Seq (Star is_space) Eps) (follow next)
                    ((name, number_text q) :: g) k = Some r).
    { rewrite match_seq. cbn [match_re]. destruct next as [|c next]; [exact Hk|].
      apply (match_star_greedy is_space (B " ")); easy. }
    destruct (q_plural q).
    + apply match_opt_take. exact Hsp.
    + cbn [app]. rewrite match_opt_skip; [exact Hsp|].
      now destruct next.
Qed.

(** The group of a unit cannot match a number that is followed by something
    else than the unit. *)
Lemma unit_body_none name word u0 w' q rest g k :
  B word = u0 :: w' ->
  all_digits (q_digits q) = true -> after_number u0 rest = true ->
  match_re (Seqs [Group name IntervalLoader.signed_number; Plus is_space;
                  Lit (B word); Opt (Chr (is_char "s")); Star is_space])
    (number_text q ++ rest) g k = None.
Proof.
  intros Hw Hq Ha. rewrite Hw. unfold Plus. cbn [Seqs Lit]. rewrite match_seq.
  cbn [match_re]. apply match_signed_number_none; [assumption| | |].
  - destruct rest as [|c0 rest0]; [reflexivity|]. simpl in Ha |- *.
    now apply andb_true_iff in Ha as [Ha _].
  - intros c s g' Hc. cbn [match_re]. now rewrite (digit_not_space c Hc).
  - destruct rest as [|c0 rest0]; [reflexivity|].
    cbn [match_re]. destruct (is_space c0) eqn:E0; [|reflexivity].
    simpl in Ha. rewrite E0 in Ha. apply andb_true_iff in Ha as [_ Ha].
    simpl in Ha. destruct rest0 as [|c1 rest1]; [reflexivity|].
    apply andb_true_iff in Ha as [H1 H2].
    apply negb_true_iff in H1, H2.
    cbn [match_star]. rewrite H1. cbn [match_re]. unfold is_char. now rewrite H2.
Qed.

Lemma unit_group_absent name word u0 w' next g k :
  B word = u0 :: w' -> later u0 next ->
  match_re (IntervalLoader.unit_group name word) next g k = k next g.
Proof.
  intros Hw [->|(q & rest & Hq & -> & Ha)]; unfold IntervalLoader.unit_group.
  - reflexivity.
  - apply match_opt_skip. now apply (unit_body_none name word u0 w').
Qed.

End IntervalPattern.

Lemma glue_follow a b : a <> [] -> glue a b = a ++ follow b.
Proof.
  destruct a as [|c a]; [congruence|]. intros _.
  destruct b; simpl; [now rewrite app_nil_r|reflexivity].
Qed.

Lemma int_digits_all ds : int_digits ds = true -> all_digits ds = true.
Proof. unfold int_digits. intros H. now apply andb_true_iff in H. Qed.

Lemma int_digits_limit ds :
  int_digits ds = true -> (Z.of_nat (List.length ds) <=? int_max_str_digits) = true.
Proof. unfold int_digits. intros H. now apply andb_true_iff in H. Qed.

Lemma unit_text_nonempty word q : unit_text word (Some q) <> [].
Proof.
  unfold unit_text. destruct (number_text q); discriminate.
Qed.

(** One unit of the pattern on a text that has the unit or goes on with a
    later part. *)
Lemma unit_stage {R} name word u0 w' q next g (k : @cont R) r :
  B word = u0 :: w' -> is_space u0 = false ->
  wf_quantity q = true -> stops is_space next = true -> later u0 next ->
  k next (quantity_groups name q ++ g) = Some r ->
  match_re (IntervalLoader.unit_group name word) (glue (unit_text word q) next) g k
  = Some r.
Proof.
  intros Hw Hu Hq Hn Hl Hk. destruct q as [q|].
  - rewrite glue_follow by apply unit_text_nonempty.
    apply int_digits_all in Hq.
    now apply (unit_group_present name word u0 w').
  - cbn [unit_text glue]. now rewrite (unit_group_absent name word u0 w').
Qed.

(** The time-of-day group on its text, which ends the input. *)
Lemma clock_stage {R} c g (k : @cont R) r :
  wf_clock c = true ->
  k [] (clock_groups c ++ g) = Some r ->
  match_re
    (Opt (Seqs [Opt (Group "hsign" (Chr is_sign));
                Group "hours" (Plus is_digit);
                Chr (is_char ":");
                Group "minutes" (Plus is_digit);
                Chr (is_char ":");
                Group "seconds"
                  (Seq (Plus is_digit)
                       (Opt (Seq (Chr (is_char ".")) (Plus is_digit))))]))
    (clock_text c) g k = Some r.
Proof.
  intros Hc Hk. destruct c as [[sg H M S f]|]; [|exact Hk].
  cbn [wf_clock c_hours c_minutes c_seconds c_fraction] in Hc.
  apply andb_true_iff in Hc as [Hc Hf]. apply andb_true_iff in Hc as [Hc HS].
  apply andb_true_iff in Hc as [HH HM].
  apply int_digits_all in HH. apply int_digits_all in HM.
  cbn [clock_groups c_sign c_hours c_minutes c_seconds c_fraction] in Hk.
  cbn [clock_text c_sign c_hours c_minutes c_seconds c_fraction].
  apply match_opt_take. cbn [Seqs]. rewrite match_seq.
  (* the hours, the minutes and the seconds, after the sign *)
  assert (Hrest : forall g',
             k [] (("seconds"%string, S ++ fraction_text f)
                   :: ("minutes"%string, M) :: ("hours"%string, H) :: g') = Some r ->
             match_re
               (Seq (Group "hours" (Plus is_digit))
                  (Seq (Chr (is_char ":"))
                     (Seq (Group "minutes" (Plus is_digit))
                        (Seq (Chr (is_char ":"))
                           (Seq (Group "seconds"
                                   (Seq (Plus is_digit)
                                      (Opt (Seq (Chr (is_char ".")) (Plus is_digit)))))
                              Eps)))))
               (H ++ B ":" ++ M ++ B ":" ++ S ++ fraction_text f) g' k = Some r).
  { intros g' Hk'. rewrite match_seq.
    destruct (all_digits_run H HH) as [HHn HHd].
    destruct (all_digits_run M HM) as [HMn HMd].
    destruct (all_digits_run S HS) as [HSn HSd].
    apply match_group_prefix.
    { intros k' E. now apply match_plus_greedy. }
    cbn [B list_ascii_of_string app].
    rewrite match_seq, match_chr_take by reflexivity. rewrite match_seq.
    apply match_group_prefix.
    { intros k' E. now apply match_plus_greedy. }
    cbn [app].
    rewrite match_seq, match_chr_take by reflexivity. rewrite match_seq.
    rewrite <- (app_nil_r (S ++ fraction_text f)).
    apply match_group_prefix; [|exact Hk'].
    intros k' E. rewrite <- app_assoc, match_seq.
    apply match_plus_greedy; try assumption.
    { now destruct f. }
    destruct f as [f|].
    - destruct (all_digits_run f Hf) as [Hfn Hfd].
      apply match_opt_take. cbn [fraction_text B list_ascii_of_string app].
      rewrite match_seq, match_chr_take by reflexivity.
      now apply match_plus_greedy.
    - exact E. }
  destruct sg as [sg|].
  - apply match_opt_take.
    replace (sign_bytes (Some sg) ++ H ++ B ":" ++ M ++ B ":" ++ S ++ fraction_text f)
      with (sign_bytes (Some sg) ++ (H ++ B ":" ++ M ++ B ":" ++ S ++ fraction_text f))
      by reflexivity.
    apply match_group_prefix.
    + intros k' E. destruct sg; cbn [sign_bytes B list_ascii_of_string app];
        now rewrite match_chr_take.
    + apply Hrest. exact Hk.
  - cbn [sign_bytes app]. rewrite match_opt_skip; [apply Hrest; exact Hk|].
    destruct H as [|c H]; [discriminate|].
    simpl in HH. apply andb_true_iff in HH as [Hd _].
    cbn [app match_re]. now rewrite (digit_not_sign c Hd).
Qed.

(** *** How the parts follow each other *)

Lemma stops_glue p a b :
  stops p a = true -> stops p b = true -> stops p (glue a b) = true.
Proof. destruct a as [|c a]; [easy|]. now destruct b. Qed.

Lemma stops_space_number q rest :
  all_digits (q_digits q) = true -> stops is_space (number_text q ++ rest) = true.
Proof.
  intros Hq. unfold number_text. destruct (q_sign q) as [[|]|]; try reflexivity.
  apply stops_digits_then; [assumption|apply digit_not_space].
Qed.

Lemma stops_space_unit_text word q :
  wf_quantity q = true -> stops is_space (unit_text word q) = true.
Proof.
  destruct q as [q|]; [|reflexivity]. intros Hq. unfold unit_text.
  apply stops_space_number. now apply int_digits_all.
Qed.

Lemma clock_text_number c :
  clock_text (Some c)
  = number_text {| q_sign := c_sign c; q_digits := c_hours c; q_plural := false |}
    ++ B ":" ++ c_minutes c ++ B ":" ++ c_seconds c ++ fraction_text (c_fraction c).
Proof. unfold clock_text, number_text. cbn [q_sign q_digits]. now rewrite <- app_assoc. Qed.

Lemma stops_space_clock_text c :
  wf_clock c = true -> stops is_space (clock_text c) = true.
Proof.
  destruct c as [c|]; [|reflexivity]. intros Hc. rewrite clock_text_number.
  apply stops_space_number. cbn [q_digits]. cbn [wf_clock] in Hc.
  do 3 (apply andb_true_iff in Hc as [Hc _]). now apply int_digits_all.
Qed.

Lemma later_clock_text u0 c : wf_clock c = true -> later u0 (clock_text c).
Proof.
  destruct c as [c|]; [|now left]. intros Hc. right.
  eexists _, _. split; [|split; [apply clock_text_number|reflexivity]].
  cbn [q_digits]. cbn [wf_clock] in Hc.
  do 3 (apply andb_true_iff in Hc as [Hc _]). now apply int_digits_all.
Qed.

Lemma later_glue u0 word w0 w' q next :
  B word = w0 :: w' -> is_space w0 = false -> Ascii.eqb u0 w0 = false ->
  wf_quantity q = true -> later u0 next ->
  later u0 (glue (unit_text word q) next).
Proof.
  intros Hw Hs Hu Hq Hn. destruct q as [q|]; [|exact Hn]. right.
  rewrite glue_follow by apply unit_text_nonempty.
  exists q, (B " " ++ B word ++ (if q_plural q then B "s" else []) ++ follow next).
  split; [exact (int_digits_all _ Hq)|]. split.
  - unfold unit_text. now rewrite <- !app_assoc.
  - rewrite Hw. simpl. now rewrite Hs, Hu.
Qed.

(** The interval pattern on an interval text: it reads the whole text and
    leaves each part in its group. *)
Lemma re_interval_on_text y mo d c :
  wf_quantity y = true -> wf_quantity mo = true -> wf_quantity d = true ->
  wf_clock c = true ->
  re_match IntervalLoader._re_interval (interval_text y mo d c)
  = Some (clock_groups c ++ quantity_groups "days" d
          ++ quantity_groups "months" mo ++ quantity_groups "years" y, []).
Proof.
  intros Hy Hmo Hd Hc.
  unfold re_match, IntervalLoader._re_interval, interval_text. cbn [Seqs].
  rewrite match_seq.
  apply (unit_stage "years" "year" "y"%char (B "ear")); try easy.
  { repeat apply stops_glue; auto using stops_space_unit_text, stops_space_clock_text. }
  { apply (later_glue _ "mon" "m"%char (B "on")); try easy.
    apply (later_glue _ "day" "d"%char (B "ay")); try easy.
    now apply later_clock_text. }
  rewrite match_seq.
  apply (unit_stage "months" "mon" "m"%char (B "on")); try easy.
  { repeat apply stops_glue; auto using stops_space_unit_text, stops_space_clock_text. }
  { apply (later_glue _ "day" "d"%char (B "ay")); try easy.
    now apply later_clock_text. }
  rewrite match_seq.
  apply (unit_stage "days" "day" "d"%char (B "ay")); try easy.
  { now apply stops_space_clock_text. }
  { now apply later_clock_text. }
  rewrite match_seq. apply clock_stage; [assumption|].
  rewrite match_eps. now rewrite app_nil_r.
Qed.

(** ** The interval loader on interval texts *)

Lemma int_of_digits_ok ds : int_digits ds = true -> int_of_digits ds = Ok (digits_val ds).
Proof.
  intros H. unfold int_of_digits.
  now rewrite (int_digits_all _ H), (int_digits_limit _ H).
Qed.

Lemma py_int_digits ds : int_digits ds = true -> py_int ds = Ok (digits_val ds).
Proof.
  intros H. pose proof (int_digits_all _ H) as A.
  destruct ds as [|c ds]; [discriminate|]. unfold py_int.
  rewrite (int_of_digits_ok _ H).
  cbn [all_digits forallb] in A. apply andb_true_iff in A as [Hc _].
  pose proof (digit_not_sign c Hc) as Hs. unfold is_sign in Hs.
  apply orb_false_iff in Hs as [-> ->]. reflexivity.
Qed.

Lemma py_int_number q :
  int_digits (q_digits q) = true ->
  py_int (number_text q) = Ok (quantity_val (Some q)).
Proof.
  intros H. unfold number_text, quantity_val.
  destruct (q_sign q) as [[|]|]; cbn [sign_bytes B list_ascii_of_string app].
  - unfold py_int. change (is_char "-" "+") with false.
    change (is_char "+" "+") with true. now rewrite (int_of_digits_ok _ H).
  - unfold py_int. change (is_char "-" "-") with true.
    now rewrite (int_of_digits_ok _ H).
  - now apply py_int_digits.
Qed.

Lemma truthy_number q :
  all_digits (q_digits q) = true ->
  IntervalLoader.truthy (Some (number_text q)) = Some (number_text q).
Proof.
  intros H. unfold number_text.
  destruct (q_sign q) as [[|]|]; try reflexivity.
  destruct (q_digits q); [discriminate|reflexivity].
Qed.

Lemma add_group_quantity g name q factor days :
  wf_quantity q = true ->
  group g name = option_map number_text q ->
  IntervalLoader.add_group g name factor days = Ok (days + factor * quantity_val q).
Proof.
  intros Hq Hg. unfold IntervalLoader.add_group. rewrite Hg.
  destruct q as [q|]; cbn [option_map].
  - rewrite (truthy_number q (int_digits_all _ Hq)), (py_int_number q Hq). reflexivity.
  - cbn [IntervalLoader.truthy quantity_val]. f_equal. lia.
Qed.

Lemma cut_digits c ds rest :
  forallb is_digit ds = true -> is_digit c = false ->
  cut c (ds ++ c :: rest) = (ds, Some rest).
Proof.
  intros Hd Hc. induction ds as [|d ds IH].
  - simpl. now rewrite Ascii.eqb_refl.
  - simpl in Hd. apply andb_true_iff in Hd as [Hd1 Hd2].
    cbn [app cut]. destruct (Ascii.eqb_spec c d) as [->|_]; [congruence|].
    now rewrite (IH Hd2).
Qed.

Lemma cut_digits_none c ds :
  forallb is_digit ds = true -> is_digit c = false -> cut c ds = (ds, None).
Proof.
  intros Hd Hc. induction ds as [|d ds IH]; [reflexivity|].
  simpl in Hd. apply andb_true_iff in Hd as [Hd1 Hd2].
  cbn [cut]. destruct (Ascii.eqb_spec c d) as [->|_]; [congruence|].
  now rewrite (IH Hd2).
Qed.

(** [float] of the seconds as written: digits, then a point and digits when
    there is a fraction. *)
Lemma py_float_seconds S f :
  all_digits S = true ->
  match f with None => true | Some f => all_digits f end = true ->
  py_float (S ++ fraction_text f)
  = Ok (float_of_ratio10 (digits_val (S ++ fraction_digits f))
          (List.length (fraction_digits f))).
Proof.
  intros HS Hf. destruct (all_digits_run S HS) as [_ HSd]. unfold py_float.
  destruct f as [f|]; cbn [fraction_text fraction_digits B list_ascii_of_string app].
  - rewrite cut_digits by easy. now rewrite HS, Hf.
  - rewrite !app_nil_r, cut_digits_none by easy. now rewrite HS.
Qed.

Lemma interval_groups_years y mo d c :
  group (interval_groups y mo d c) "years" = option_map number_text y.
Proof. destruct c as [[[sg|] ? ? ? ?]|], d, mo, y; reflexivity. Qed.

Lemma interval_groups_months y mo d c :
  group (interval_groups y mo d c) "months" = option_map number_text mo.
Proof. destruct c as [[[sg|] ? ? ? ?]|], d, mo, y; reflexivity. Qed.

Lemma interval_groups_days y mo d c :
  group (interval_groups y mo d c) "days" = option_map number_text d.
Proof. destruct c as [[[sg|] ? ? ? ?]|], d, mo, y; reflexivity. Qed.

Lemma interval_groups_hours y mo d c :
  group (interval_groups y mo d c) "hours" = option_map c_hours c.
Proof. destruct c as [[[sg|] ? ? ? ?]|], d, mo, y; reflexivity. Qed.

Lemma interval_groups_clock y mo d c :
  group (interval_groups y mo d (Some c)) "minutes" = Some (c_minutes c)
  /\ group (interval_groups y mo d (Some c)) "seconds"
     = Some (c_seconds c ++ fraction_text (c_fraction c))
  /\ group (interval_groups y mo d (Some c)) "hsign"
     = match c_sign c with
       | None => None
       | Some sg => Some (sign_bytes (Some sg))
       end.
Proof. destruct c as [[sg|] ? ? ? ?], d, mo, y; repeat split; reflexivity. Qed.

(** The loader on an interval text: the days are [365 * years + 30 * months
    + days], the seconds are those of the time-of-day group, and the two go
    to the [timedelta] constructor. *)
Lemma IntervalLoader_load_text y mo d c :
  wf_quantity y = true -> wf_quantity mo = true -> wf_quantity d = true ->
  wf_clock c = true ->
  IntervalLoader.load (interval_text y mo d c)
  = (seconds <- clock_seconds c ;;
     timedelta_or_data_error
       (365 * quantity_val y + 30 * quantity_val mo + quantity_val d) seconds).
Proof.
  intros Hy Hmo Hd Hc. unfold IntervalLoader.load.
  rewrite (re_interval_on_text y mo d c Hy Hmo Hd Hc).
  fold (interval_groups y mo d c).
  rewrite (add_group_quantity _ "years" y 365 0 Hy (interval_groups_years y mo d c)).
  cbn [bind].
  rewrite (add_group_quantity _ "months" mo 30 _ Hmo (interval_groups_months y mo d c)).
  cbn [bind].
  rewrite (add_group_quantity _ "days" d 1 _ Hd (interval_groups_days y mo d c)).
  cbn [bind].
  replace (0 + 365 * quantity_val y + 30 * quantity_val mo + 1 * quantity_val d)
    with (365 * quantity_val y + 30 * quantity_val mo + quantity_val d) by lia.
  rewrite interval_groups_hours.
  destruct c as [c|]; cbn [option_map clock_seconds]; [|reflexivity].
  cbn [wf_clock] in Hc.
  apply andb_true_iff in Hc as [Hc Hf]. apply andb_true_iff in Hc as [Hc HS].
  apply andb_true_iff in Hc as [HH HM].
  destruct (interval_groups_clock y mo d c) as (Em & Es & Eg).
  unfold IntervalLoader.group_bytes. rewrite Em, Es, Eg.
  replace (IntervalLoader.truthy (Some (c_hours c))) with (Some (c_hours c))
    by (destruct (c_hours c); [discriminate|reflexivity]).
  rewrite (py_int_digits _ HH), (py_int_digits _ HM), (py_float_seconds _ _ HS Hf).
  cbn [bind].
  destruct (float_of_int (3600 * digits_val (c_hours c) + 60 * digits_val (c_minutes c)));
    cbn [bind]; [|reflexivity].
  destruct (c_sign c) as [[|]|]; reflexivity.
Qed.

(** On the largest time of day the server can send, the seconds lose their
    last digits in the float sum. *)
Lemma IntervalLoader_load_large_clock :
  IntervalLoader.load (B "2562047788:00:54.775807")
  = Ok (mk_timedelta 106751991 14454 775391).
Proof. vm_compute. reflexivity. Qed.


(** ** The float sum of a time of day *)



























(** The constructor on a finite number of seconds: the days and the
    microseconds of the seconds are added up and normalised; the days that
    result decide between the duration and the two overflows. *)
Lemma timedelta_new_micros days s us :
  float_micros s = Some us ->
  timedelta_new days s
  = let total := 86400000000 * days + us in
    let D := total / 86400000000 in
    if (D <? - 2147483648) || (2147483647 <? D)
    then Raise (OverflowError (T "Python int too large to convert to C int"))
    else if Z.abs D >? 999999999
    then Raise (OverflowError
                  (str_of_bytes (B "days=" ++ pct_d D
                                 ++ B "; must have magnitude <= 999999999")))
    else Ok (mk_timedelta D (total / 1000000 mod 86400) (total mod 1000000)).
Proof.
  unfold float_micros, timedelta_new.
  destruct (float_modf s) as [[frac whole]|]; [|discriminate].
  destruct (float_round _) as [micro|]; [|discriminate].
  intros [= <-]. cbv zeta.
  replace (days + whole / 86400 + (whole mod 86400 + micro / 1000000) / 86400)
    with ((86400000000 * days + (whole * 1000000 + micro)) / 86400000000)
    by (Z.to_euclidean_division_equations; lia).
  replace ((whole mod 86400 + micro / 1000000) mod 86400)
    with ((86400000000 * days + (whole * 1000000 + micro)) / 1000000 mod 86400)
    by (Z.to_euclidean_division_equations; lia).
  replace (micro mod 1000000)
    with ((86400000000 * days + (whole * 1000000 + micro)) mod 1000000)
    by (Z.to_euclidean_division_equations; lia).
  reflexivity.
Qed.

(** On the longest hours a float cannot hold, the sum of the hours and the
    minutes fails before the [try], and the loader lets the [OverflowError]
    through. *)
Lemma IntervalLoader_load_beyond_float :
  IntervalLoader.load (B "1" ++ repeat "0"%char 310 ++ B ":00:00")
  = Raise (OverflowError (T "int too large to convert to float")).
Proof. vm_compute. reflexivity. Qed.

(** Under 2**31 days the overflow names the days; from there on it is that
    of the conversion to a C [int]. *)
Lemma IntervalLoader_load_beyond_int :
  IntervalLoader.load (B "2147483647 days")
  = Raise (DataError (T "days=2147483647; must have magnitude <= 999999999"))
  /\ IntervalLoader.load (B "2147483648 days")
     = Raise (DataError (T "Python int too large to convert to C int"))
  /\ IntervalLoader.load (B "-2147483648 days")
     = Raise (DataError (T "days=-2147483648; must have magnitude <= 999999999"))
  /\ IntervalLoader.load (B "-2147483649 days")
     = Raise (DataError (T "Python int too large to convert to C int")).
Proof. repeat split; vm_compute; reflexivity. Qed.



(** ** Dates: fields of two and four digits *)

Lemma digit_char_facts a :
  0 <= a <= 9 ->
  is_digit (digit_char a) = true /\ digit_val (digit_char a) = a
  /\ is_ascii_byte (digit_char a) = true /\ is_uspace (digit_char a) = false.
Proof.
  intros H.
  assert (C : a = 0 \/ a = 1 \/ a = 2 \/ a = 3 \/ a = 4 \/ a = 5 \/ a = 6
              \/ a = 7 \/ a = 8 \/ a = 9) by lia.
  repeat destruct C as [->|C]; try subst a; vm_compute; auto.
Qed.

(** A property of the integers from [lo] on holds for the [n] first of them
    when it holds for each. *)
Lemma Z_range_cases (P : Z -> Prop) (lo : Z) (n : nat) :
  (forall i, (i < n)%nat -> P (lo + Z.of_nat i)) ->
  forall d, lo <= d < lo + Z.of_nat n -> P d.
Proof.
  intros H d Hd. replace d with (lo + Z.of_nat (Z.to_nat (d - lo))) by lia.
  apply H. lia.
Qed.

Lemma four_bounds y :
  0 <= y <= 9999 ->
  0 <= y / 1000 <= 9 /\ 0 <= y / 100 mod 10 <= 9
  /\ 0 <= y / 10 mod 10 <= 9 /\ 0 <= y mod 10 <= 9.
Proof. intros H. Z.to_euclidean_division_equations. lia. Qed.

Lemma two_bounds n : 0 <= n <= 99 -> 0 <= n / 10 <= 9 /\ 0 <= n mod 10 <= 9.
Proof. intros H. Z.to_euclidean_division_equations. lia. Qed.

Lemma four_value y : 0 <= y <= 9999 -> digits_val (lstrip (four y)) = y.
Proof.
  intros H. destruct (four_bounds y H) as (H3 & H2 & H1 & H0).
  destruct (digit_char_facts _ H3) as (_ & V3 & _ & S3).
  destruct (digit_char_facts _ H2) as (_ & V2 & _ & _).
  destruct (digit_char_facts _ H1) as (_ & V1 & _ & _).
  destruct (digit_char_facts _ H0) as (_ & V0 & _ & _).
  unfold four. cbn [lstrip]. rewrite S3. unfold digits_val. cbn [fold_left].
  rewrite V3, V2, V1, V0. Z.to_euclidean_division_equations. lia.
Qed.

Lemma two_value n : 0 <= n <= 99 -> digits_val (lstrip (two n)) = n.
Proof.
  intros H. destruct (two_bounds n H) as (H1 & H0).
  destruct (digit_char_facts _ H1) as (_ & V1 & _ & S1).
  destruct (digit_char_facts _ H0) as (_ & V0 & _ & _).
  unfold two. cbn [lstrip]. rewrite S1. unfold digits_val. cbn [fold_left].
  rewrite V1, V0. Z.to_euclidean_division_equations. lia.
Qed.

Lemma four_ascii y : 0 <= y <= 9999 -> is_ascii (four y) = true.
Proof.
  intros H. destruct (four_bounds y H) as (H3 & H2 & H1 & H0).
  destruct (digit_char_facts _ H3) as (_ & _ & A3 & _).
  destruct (digit_char_facts _ H2) as (_ & _ & A2 & _).
  destruct (digit_char_facts _ H1) as (_ & _ & A1 & _).
  destruct (digit_char_facts _ H0) as (_ & _ & A0 & _).
  unfold four, is_ascii. cbn [forallb]. now rewrite A3, A2, A1, A0.
Qed.

Lemma two_ascii n : 0 <= n <= 99 -> is_ascii (two n) = true.
Proof.
  intros H. destruct (two_bounds n H) as (H1 & H0).
  destruct (digit_char_facts _ H1) as (_ & _ & A1 & _).
  destruct (digit_char_facts _ H0) as (_ & _ & A0 & _).
  unfold two, is_ascii. cbn [forallb]. now rewrite A1, A0.
Qed.

(** ** The patterns of the date directives on their fields *)

Section DateDirectives.
Context {R : Type}.
Implicit Types (k : @cont R) (rest : bytes) (g : groups).

(** One concrete field: the pattern is run on its characters, and the first
    alternative that reads them hands over to the continuation. *)
Ltac run_alternatives E :=
  intros ? ? ? ? E; vm_compute; rewrite E; reflexivity.

Lemma match_day_alternatives dd :
  1 <= dd < 1 + Z.of_nat 31 ->
  forall rest g k r,
    k rest g = Some r ->
    match_re (Alts (Seq (Chr (is_char "3")) (Chr (in_range "0" "1")))
                [Seq (Chr (in_range "1" "2")) D;
                 Seq (Chr (is_char "0")) (Chr (in_range "1" "9"));
                 Chr (in_range "1" "9");
                 Seq (Chr (is_char " ")) (Chr (in_range "1" "9"))])
      (two dd ++ rest) g k = Some r.
Proof.
  revert dd.
  apply (Z_range_cases
           (fun dd => forall rest g k r, k rest g = Some r ->
                      match_re _ (two dd ++ rest) g k = Some r) 1 31).
  intros i Hi.
  do 31 (destruct i as [|i]; [run_alternatives E|]). lia.
Qed.

Lemma match_month_alternatives m :
  1 <= m < 1 + Z.of_nat 12 ->
  forall rest g k r,
    k rest g = Some r ->
    match_re (Alts (Seq (Chr (is_char "1")) (Chr (in_range "0" "2")))
                [Seq (Chr (is_char "0")) (Chr (in_range "1" "9"));
                 Chr (in_range "1" "9")])
      (two m ++ rest) g k = Some r.
Proof.
  revert m.
  apply (Z_range_cases
           (fun m => forall rest g k r, k rest g = Some r ->
                     match_re _ (two m ++ rest) g k = Some r) 1 12).
  intros i Hi.
  do 12 (destruct i as [|i]; [run_alternatives E|]). lia.
Qed.

Lemma match_re_d dd rest g k r :
  1 <= dd <= 31 ->
  k rest (("d"%string, two dd) :: g) = Some r ->
  match_re re_d (two dd ++ rest) g k = Some r.
Proof.
  intros H Hk. unfold re_d. apply match_group_prefix; [|exact Hk].
  intros k' E. apply match_day_alternatives; [lia|exact E].
Qed.

Lemma match_re_m m rest g k r :
  1 <= m <= 12 ->
  k rest (("m"%string, two m) :: g) = Some r ->
  match_re re_m (two m ++ rest) g k = Some r.
Proof.
  intros H Hk. unfold re_m. apply match_group_prefix; [|exact Hk].
  intros k' E. apply match_month_alternatives; [lia|exact E].
Qed.

Lemma match_re_Y y rest g k r :
  0 <= y <= 9999 ->
  k rest (("Y"%string, four y) :: g) = Some r ->
  match_re re_Y (four y ++ rest) g k = Some r.
Proof.
  intros H Hk. unfold re_Y. apply match_group_prefix; [|exact Hk].
  intros k' E. destruct (four_bounds y H) as (H3 & H2 & H1 & H0).
  destruct (digit_char_facts _ H3) as (D3 & _).
  destruct (digit_char_facts _ H2) as (D2 & _).
  destruct (digit_char_facts _ H1) as (D1 & _).
  destruct (digit_char_facts _ H0) as (D0 & _).
  unfold four, D. cbn [Seqs app].
  rewrite match_seq, (match_chr_take _ _ _ _ _ D3).
  rewrite match_seq, (match_chr_take _ _ _ _ _ D2).
  rewrite match_seq, (match_chr_take _ _ _ _ _ D1).
  rewrite match_seq, (match_chr_take _ _ _ _ _ D0).
  rewrite match_eps. exact E.
Qed.

(** A separator of the format in the text. *)
Lemma match_separator c rest g k r :
  k rest g = Some r ->
  match_re (Chr (is_char_i c)) (c :: rest) g k = Some r.
Proof.
  intros Hk. rewrite match_chr_take; [exact Hk|].
  unfold is_char_i. apply Ascii.eqb_refl.
Qed.

End DateDirectives.

(** ** [str(date)] *)

Lemma pct_0d_four y : 0 <= y <= 9999 -> pct_0d 4 y = four y.
Proof.
  intros H. revert y H.
  assert (A : forallb (fun i => bytes_eqb (pct_0d 4 (Z.of_nat i)) (four (Z.of_nat i)))
                (seq 0 (Z.to_nat 10000)) = true) by (vm_compute; reflexivity).
  intros y H. rewrite forallb_forall in A.
  specialize (A (Z.to_nat y)). rewrite Z2Nat.id in A by lia.
  apply bytes_eqb_eq, A, in_seq. lia.
Qed.

Lemma pct_0d_two n : 0 <= n <= 99 -> pct_0d 2 n = two n.
Proof.
  intros H. revert n H.
  assert (A : forallb (fun i => bytes_eqb (pct_0d 2 (Z.of_nat i)) (two (Z.of_nat i)))
                (seq 0 (Z.to_nat 100)) = true) by (vm_compute; reflexivity).
  intros n H. rewrite forallb_forall in A.
  specialize (A (Z.to_nat n)). rewrite Z2Nat.id in A by lia.
  apply bytes_eqb_eq, A, in_seq. lia.
Qed.

Lemma valid_date_bounds d :
  valid_date d = true ->
  1 <= year d <= 9999 /\ 1 <= month d <= 12 /\ 1 <= day d <= 31.
Proof.
  unfold valid_date. intros H.
  repeat (apply andb_true_iff in H as [H ?]).
  assert (days_in_month (year d) (month d) <= 31).
  { unfold days_in_month.
    destruct (month d =? 2); [destruct (is_leap (year d)); lia|].
    destruct ((month d =? 4) || (month d =? 6) || (month d =? 9) || (month d =? 11)); lia. }
  lia.
Qed.

Lemma date_str_iso d :
  valid_date d = true ->
  date_str d = four (year d) ++ B "-" ++ two (month d) ++ B "-" ++ two (day d).
Proof.
  intros H. destruct (valid_date_bounds d H) as (Hy & Hm & Hd). unfold date_str.
  now rewrite pct_0d_four, !pct_0d_two by lia.
Qed.

(** ** [strptime] on the date formats *)

(** What [strptime] makes of the groups of a date. *)
Lemma strptime_of_date_groups text fmt re g d :
  format_regex fmt = Some re ->
  re_match re text = Some (g, []) ->
  group g "Y" = Some (four (year d)) ->
  group g "m" = Some (two (month d)) ->
  group g "d" = Some (two (day d)) ->
  group g "b" = None -> group g "H" = None -> group g "M" = None ->
  group g "S" = None -> group g "f" = None -> group g "z" = None ->
  valid_date d = true ->
  strptime text fmt = Ok (mk_datetime d no_time).
Proof.
  intros Hf Hm GY Gm Gd Gb GH GM GS Gf Gz Hv.
  destruct (valid_date_bounds d Hv) as (Hy & Hmo & Hd).
  unfold strptime. rewrite Hf, Hm. unfold group_int.
  rewrite GY, Gm, Gd, Gb, GH, GM, GS, Gf, Gz. cbn [bind].
  rewrite four_value, !two_value by lia.
  destruct d as [y m dd]. cbn [year month day] in *. now rewrite Hv.
Qed.

Section DateFormats.
Variable d : date.
Hypothesis Hvalid : valid_date d = true.
Variable sep : ascii.

Lemma match_year_month_day :
  re_match (Seq re_Y (Seq (Chr (is_char_i sep)) (Seq re_m (Seq (Chr (is_char_i sep)) (Seq re_d Eps)))))
    (four (year d) ++ [sep] ++ two (month d) ++ [sep] ++ two (day d))
  = Some ([("d"%string, two (day d)); ("m"%string, two (month d));
           ("Y"%string, four (year d))], []).
Proof.
  destruct (valid_date_bounds d Hvalid) as (Hy & Hm & Hd).
  unfold re_match. rewrite match_seq. apply match_re_Y; [lia|].
  rewrite match_seq. apply match_separator.
  rewrite match_seq. apply match_re_m; [lia|].
  rewrite match_seq. apply match_separator.
  rewrite match_seq. rewrite <- (app_nil_r (two (day d))).
  apply match_re_d; [lia|]. reflexivity.
Qed.

Lemma match_day_month_year :
  re_match (Seq re_d (Seq (Chr (is_char_i sep)) (Seq re_m (Seq (Chr (is_char_i sep)) (Seq re_Y Eps)))))
    (two (day d) ++ [sep] ++ two (month d) ++ [sep] ++ four (year d))
  = Some ([("Y"%string, four (year d)); ("m"%string, two (month d));
           ("d"%string, two (day d))], []).
Proof.
  destruct (valid_date_bounds d Hvalid) as (Hy & Hm & Hd).
  unfold re_match. rewrite match_seq. apply match_re_d; [lia|].
  rewrite match_seq. apply match_separator.
  rewrite match_seq. apply match_re_m; [lia|].
  rewrite match_seq. apply match_separator.
  rewrite match_seq. rewrite <- (app_nil_r (four (year d))).
  apply match_re_Y; [lia|]. reflexivity.
Qed.

Lemma match_month_day_year :
  re_match (Seq re_m (Seq (Chr (is_char_i sep)) (Seq re_d (Seq (Chr (is_char_i sep)) (Seq re_Y Eps)))))
    (two (month d) ++ [sep] ++ two (day d) ++ [sep] ++ four (year d))
  = Some ([("Y"%string, four (year d)); ("d"%string, two (day d));
           ("m"%string, two (month d))], []).
Proof.
  destruct (valid_date_bounds d Hvalid) as (Hy & Hm & Hd).
  unfold re_match. rewrite match_seq. apply match_re_m; [lia|].
  rewrite match_seq. apply match_separator.
  rewrite match_seq. apply match_re_d; [lia|].
  rewrite match_seq. apply match_separator.
  rewrite match_seq. rewrite <- (app_nil_r (four (year d))).
  apply match_re_Y; [lia|]. reflexivity.
Qed.

End DateFormats.

(** ** Dates in the four styles *)

Lemma date_text_ascii f o d : valid_date d = true -> is_ascii (date_text f o d) = true.
Proof.
  intros H. destruct (valid_date_bounds d H) as (Hy & Hm & Hd).
  assert (AY : is_ascii (four (year d)) = true) by (apply four_ascii; lia).
  assert (AM : is_ascii (two (month d)) = true) by (apply two_ascii; lia).
  assert (AD : is_ascii (two (day d)) = true) by (apply two_ascii; lia).
  unfold date_text. destruct f, o; rewrite !is_ascii_app, AY, AM, AD; reflexivity.
Qed.

Lemma DateLoader_load_ok self text d :
  is_ascii text = true ->
  strptime text (DateLoader._format self) = Ok (mk_datetime d no_time) ->
  DateLoader.load self text = Ok d.
Proof.
  intros Ha Hp. unfold DateLoader.load, decode_strptime. now rewrite Ha, Hp.
Qed.

Lemma DateLoader_init_style f o built :
  built (B "DateStyle") = Some (datestyle f o) ->
  DateLoader.init true built
  = Ok {| DateLoader.base := {| connection := true |};
          DateLoader._format := style_format f o |}.
Proof.
  intros H. unfold DateLoader.init, DateLoader._format_from_context, _get_datestyle.
  cbn [connection]. rewrite H. destruct f, o; reflexivity.
Qed.

Lemma strptime_date_text f o d :
  valid_date d = true ->
  strptime (date_text f o d) (style_format f o) = Ok (mk_datetime d no_time).
Proof.
  intros H. destruct f, o; cbn [date_text style_format].
  all: eapply strptime_of_date_groups;
    [reflexivity
    |first [exact (match_year_month_day d H _)
           |exact (match_day_month_year d H _)
           |exact (match_month_day_year d H _)]
    |reflexivity..|exact H].
Qed.

(** C1: under each of the four styles, day first or month first, the loader
    built for the style decodes the text of a date in that style to the
    date; and the dumper writes a date as [YYYY-MM-DD] whatever the style. *)
Theorem C1_date_styles (f : family) (o : ordering) (d : date) (built : session) :
  valid_date d = true ->
  built (B "DateStyle") = Some (datestyle f o) ->
  (exists loader,
      DateLoader.init true built = Ok loader
      /\ DateLoader.load loader (date_text f o d) = Ok d)
  /\ DateDumper.dump (DateDumper.init true built) d
     = four (year d) ++ B "-" ++ two (month d) ++ B "-" ++ two (day d).
Proof.
  intros Hv Hs. split.
  - eexists. split; [apply (DateLoader_init_style f o built Hs)|].
    apply DateLoader_load_ok.
    + now apply date_text_ascii.
    + now apply strptime_date_text.
  - unfold DateDumper.dump. now apply date_str_iso.
Qed.

Lemma C1_date_styles_witness :
  let built := session_with (B "DateStyle") (B "SQL, MDY") in
  (exists loader,
      DateLoader.init true built = Ok loader
      /\ DateLoader.load loader (B "02/29/2024") = Ok (mk_date 2024 2 29))
  /\ DateDumper.dump (DateDumper.init true built) (mk_date 2024 2 29) = B "2024-02-29".
Proof.
  intros built.
  exact (C1_date_styles SQL MDY (mk_date 2024 2 29) built eq_refl eq_refl).
Defined.

(** * Further properties of the adapters *)

(** ** Times whose text starts with [24] *)

Lemma time_formats :
  TimeLoader._format = B "%H:%M:%S.%f"
  /\ TimeLoader._format_no_micro = B "%H:%M:%S"
  /\ TimeTzLoader._format = B "%H:%M:%S.%f%z"
  /\ TimeTzLoader._format_no_micro = B "%H:%M:%S%z".
Proof. repeat split; reflexivity. Qed.

(** No text starting with [24] matches a format that starts with [%H:]:
    the hour pattern can only read the [2], and a colon must follow. *)
Lemma strptime_24_no_match (rest fmt : bytes) :
  In fmt [TimeLoader._format; TimeLoader._format_no_micro;
          TimeTzLoader._format; TimeTzLoader._format_no_micro] ->
  strptime ("2" :: "4" :: rest)%char fmt
  = Raise (ValueError (VE_no_match ("2" :: "4" :: rest)%char fmt)).
Proof.
  intros [<-|[<-|[<-|[<-|[]]]]].
  all: unfold strptime;
    match goal with
    | |- context [format_regex ?f] =>
        let r := eval vm_compute in (format_regex f) in
        change (format_regex f) with r
    end;
    cbv iota beta;
    match goal with
    | |- context [re_match ?r ?d] =>
        replace (re_match r d) with (@None (groups * bytes))
          by (vm_compute; reflexivity)
    end;
    reflexivity.
Qed.

Lemma startswith_24 (data : bytes) :
  startswith data (B "24") = true -> exists rest, data = ("2" :: "4" :: rest)%char.
Proof.
  intros H.
  destruct data as [|a [|b rest]];
    cbn [startswith B list_ascii_of_string] in H; try discriminate.
  - now rewrite andb_false_r in H.
  - apply andb_true_iff in H as [Ha H]. apply andb_true_iff in H as [Hb _].
    apply Ascii.eqb_eq in Ha, Hb. subst. now exists rest.
Qed.

(** A time text that starts with [24] is never decoded: when it is ASCII the
    time loaders answer it with the [DataError] about times Python does not
    support, whatever follows the two bytes. *)
Theorem time_24_is_data_error (data : bytes) :
  startswith data (B "24") = true -> is_ascii data = true ->
  TimeLoader.load data
  = Raise (DataError (T "time not supported by Python: " ++ str_of_bytes data))
  /\ (forall c,
         index_from_end data 3 = Ok c ->
         TimeTzLoader.load data
         = Raise (DataError (T "time not supported by Python: "
                             ++ str_of_bytes (with_minutes data c)))).
Proof.
  intros H24 Ha. split.
  - destruct (startswith_24 data H24) as [rest ->].
    unfold TimeLoader.load, decode_strptime. rewrite Ha.
    rewrite strptime_24_no_match
      by (destruct (contains "." _); simpl; auto).
    now apply TimeLoader_raise_error_24.
  - intros c Hc. pose proof (index_from_end_length data c Hc) as L.
    assert (H24' : startswith (with_minutes data c) (B "24") = true)
      by now rewrite with_minutes_startswith.
    assert (Ha' : is_ascii (with_minutes data c) = true)
      by now rewrite with_minutes_ascii.
    unfold TimeTzLoader.load. rewrite Hc. cbn [bind]. cbv zeta.
    change (if is_plus_minus c then data ++ B "00" else data)
      with (with_minutes data c).
    destruct (startswith_24 _ H24') as [rest E]. rewrite E in *.
    unfold decode_strptime. rewrite Ha'.
    rewrite strptime_24_no_match
      by (destruct (contains "." _); simpl; auto).
    now apply TimeLoader_raise_error_24.
Qed.

Lemma time_24_is_data_error_witness :
  TimeLoader.load (B "24:00:00")
  = Raise (DataError (T "time not supported by Python: 24:00:00"))
  /\ TimeTzLoader.load (B "24:00:00-03")
     = Raise (DataError (T "time not supported by Python: 24:00:00-0300")).
Proof.
  destruct (time_24_is_data_error (B "24:00:00") eq_refl eq_refl) as [H1 _].
  destruct (time_24_is_data_error (B "24:00:00-03") eq_refl eq_refl) as [_ H2].
  split; [exact H1|exact (H2 "-"%char eq_refl)].
Defined.

(** ** Offsets of hours only *)

Lemma index_from_end_completed (data : bytes) (l : ascii) :
  index_from_end data 1 = Ok l -> index_from_end (data ++ B "00") 3 = Ok l.
Proof.
  unfold index_from_end. rewrite rev_app_distr. cbn [B list_ascii_of_string rev app].
  change (3 - 1)%nat with 2%nat. change (1 - 1)%nat with 0%nat.
  cbn [nth_error]. auto.
Qed.

(** When the third byte from the end is a sign and the last byte is not, the
    loaders with a zone read the text as if [00] had been written after it:
    [+HH] and [+HH00] decode alike. *)
Theorem offset_of_hours_completed (data : bytes) (c l : ascii) :
  index_from_end data 3 = Ok c -> is_plus_minus c = true ->
  index_from_end data 1 = Ok l -> is_plus_minus l = false ->
  TimeTzLoader.load data = TimeTzLoader.load (data ++ B "00")
  /\ (forall self live,
         TimestamptzLoader.load self live data
         = TimestamptzLoader.load self live (data ++ B "00")).
Proof.
  intros Hc Hs Hl Hn. pose proof (index_from_end_completed data l Hl) as E. split.
  - unfold TimeTzLoader.load. rewrite Hc, E. cbn [bind]. now rewrite Hs, Hn.
  - intros self live. unfold TimestamptzLoader.load. rewrite Hc, E. cbn [bind].
    now rewrite Hs, Hn.
Qed.

Lemma offset_of_hours_completed_witness :
  TimeTzLoader.load (B "10:00:00+02") = TimeTzLoader.load (B "10:00:00+0200")
  /\ TimeTzLoader.load (B "10:00:00+02")
     = Ok (mk_time 10 0 0 0 (Some (mk_tz 7200 0))).
Proof.
  split; [|reflexivity].
  exact (proj1 (offset_of_hours_completed (B "10:00:00+02") "+"%char "2"%char
                  eq_refl eq_refl eq_refl eq_refl)).
Defined.

(** ** Intervals without a time of day *)

(** An interval text made of years, months and days only, each of at most
    4300 digits, is decoded exactly: [365 * years + 30 * months + days] days
    and nothing else when that number is at most 999999999 in magnitude;
    beyond that the [DataError] that names the days while they fit a C
    [int], and the [DataError] of the conversion to a C [int] when they do
    not. *)
Theorem interval_of_days_only (y mo d : option quantity) :
  wf_quantity y = true -> wf_quantity mo = true -> wf_quantity d = true ->
  let days := 365 * quantity_val y + 30 * quantity_val mo + quantity_val d in
  IntervalLoader.load (interval_text y mo d None)
  = if (days <? - 2147483648) || (2147483647 <? days)
    then Raise (DataError (T "Python int too large to convert to C int"))
    else if Z.abs days >? 999999999
    then Raise (DataError (str_of_bytes (B "days=" ++ pct_d days
                                         ++ B "; must have magnitude <= 999999999")))
    else Ok (mk_timedelta days 0 0).
Proof.
  intros Hy Hmo Hd days.
  rewrite (IntervalLoader_load_text y mo d None Hy Hmo Hd eq_refl).
  fold days. cbn [clock_seconds bind].
  unfold timedelta_or_data_error.
  rewrite (timedelta_new_micros days (S754_zero false) 0 eq_refl). cbv zeta.
  replace ((86400000000 * days + 0) / 86400000000) with days
    by (Z.to_euclidean_division_equations; lia).
  replace ((86400000000 * days + 0) / 1000000 mod 86400) with 0
    by (Z.to_euclidean_division_equations; lia).
  replace ((86400000000 * days + 0) mod 1000000) with 0
    by (Z.to_euclidean_division_equations; lia).
  destruct ((days <? - 2147483648) || (2147483647 <? days)); [reflexivity|].
  now destruct (Z.abs days >? 999999999).
Qed.

Lemma interval_of_days_only_witness :
  IntervalLoader.load (B "-2 years 1 mon") = Ok (mk_timedelta (-700) 0 0).
Proof.
  exact (interval_of_days_only
           (Some {| q_sign := Some sgn_minus; q_digits := B "2"; q_plural := true |})
           (Some {| q_sign := None; q_digits := B "1"; q_plural := false |})
           None eq_refl eq_refl eq_refl).
Defined.

(** ** The default style *)

(** Without a connection, or when the session does not report a
    [DateStyle] (or reports an empty one), the date loader reads ISO dates:
    the default [ISO, DMY] applies. *)
Theorem date_loader_default_style (ctx : bool) (live : session) (o : ordering) (d : date) :
  valid_date d = true ->
  ctx = false \/ live (B "DateStyle") = None \/ live (B "DateStyle") = Some [] ->
  exists loader,
    DateLoader.init ctx live = Ok loader
    /\ DateLoader.load loader (date_text ISO o d) = Ok d.
Proof.
  intros Hv Hc.
  exists {| DateLoader.base := {| connection := ctx |};
            DateLoader._format := B "%Y-%m-%d" |}.
  split.
  - unfold DateLoader.init, DateLoader._format_from_context, _get_datestyle.
    cbn [connection].
    destruct Hc as [->|[->| ->]]; [reflexivity| |]; now destruct ctx.
  - apply DateLoader_load_ok.
    + now apply date_text_ascii.
    + exact (strptime_date_text ISO o d Hv).
Qed.

Lemma date_loader_default_style_witness :
  exists loader,
    DateLoader.init false (session_with (B "DateStyle") (B "German, DMY")) = Ok loader
    /\ DateLoader.load loader (B "1999-12-31") = Ok (mk_date 1999 12 31).
Proof.
  exact (date_loader_default_style false
           (session_with (B "DateStyle") (B "German, DMY")) DMY
           (mk_date 1999 12 31) eq_refl (or_introl eq_refl)).
Defined.

(** ** Splitting a date text at its separators *)

Lemma split_on_absent sep b : avoids sep b = true -> split_on sep b = [b].
Proof.
  induction b as [|c b IH]; [reflexivity|]. cbn [avoids forallb split_on].
  intros H. apply andb_true_iff in H as [Hc Hb]. apply negb_true_iff in Hc.
  rewrite Hc. now rewrite (IH Hb).
Qed.

Lemma split_on_present sep a b :
  avoids sep a = true -> split_on sep (a ++ sep :: b) = a :: split_on sep b.
Proof.
  induction a as [|c a IH]; intros H.
  - cbn [app split_on]. now rewrite Ascii.eqb_refl.
  - cbn [avoids forallb] in H. apply andb_true_iff in H as [Hc Ha].
    apply negb_true_iff in Hc. cbn [app split_on]. rewrite Hc.
    now rewrite (IH Ha).
Qed.

Lemma avoids_app x a b : avoids x (a ++ b) = avoids x a && avoids x b.
Proof. apply forallb_app. Qed.

Lemma digits_avoid x ds :
  is_digit x = false -> forallb is_digit ds = true -> avoids x ds = true.
Proof.
  intros Hx. induction ds as [|c ds IH]; [reflexivity|]. cbn [forallb avoids].
  intros H. apply andb_true_iff in H as [Hc Hd]. fold (avoids x ds).
  rewrite (IH Hd), andb_true_r. apply negb_true_iff.
  destruct (Ascii.eqb_spec x c) as [->|]; congruence.
Qed.

Lemma four_digits y : 0 <= y <= 9999 -> forallb is_digit (four y) = true.
Proof.
  intros H. destruct (four_bounds y H) as (H3 & H2 & H1 & H0).
  destruct (digit_char_facts _ H3) as (D3 & _).
  destruct (digit_char_facts _ H2) as (D2 & _).
  destruct (digit_char_facts _ H1) as (D1 & _).
  destruct (digit_char_facts _ H0) as (D0 & _).
  unfold four. cbn [forallb]. now rewrite D3, D2, D1, D0.
Qed.

Lemma two_digits n : 0 <= n <= 99 -> forallb is_digit (two n) = true.
Proof.
  intros H. destruct (two_bounds n H) as (H1 & H0).
  destruct (digit_char_facts _ H1) as (D1 & _).
  destruct (digit_char_facts _ H0) as (D0 & _).
  unfold two. cbn [forallb]. now rewrite D1, D0.
Qed.

Lemma digits_ascii ds : forallb is_digit ds = true -> is_ascii ds = true.
Proof.
  induction ds as [|c ds IH]; [reflexivity|]. cbn [forallb is_ascii].
  intros H. apply andb_true_iff in H as [Hc Hd]. fold (is_ascii ds).
  rewrite (IH Hd), andb_true_r. revert Hc. by_cases_on_char c.
Qed.

Lemma date_text_layout f o d :
  date_text f o d = date_layout f o (four (year d)) (two (month d)) (two (day d)).
Proof. now destruct f, o. Qed.

Lemma len_app a b : len (a ++ b) = len a + len b.
Proof. unfold len. rewrite length_app. lia. Qed.

(** The parts of a laid-out date are its three fields. *)
Lemma layout_parts f o Y M D :
  forallb is_digit Y = true -> forallb is_digit M = true ->
  forallb is_digit D = true ->
  longest_part (style_separator f) (date_layout f o Y M D)
  = Z.max (len Y) (Z.max (len M) (len D)).
Proof.
  intros HY HM HD.
  assert (Sp : forall ds, forallb is_digit ds = true -> avoids " " ds = true)
    by (intros; now apply digits_avoid).
  assert (Sep : forall ds, forallb is_digit ds = true ->
                           avoids (style_separator f) ds = true)
    by (intros; apply digits_avoid; [now destruct f|assumption]).
  unfold longest_part, date_token.
  rewrite (split_on_absent " " (date_layout f o Y M D)).
  - unfold date_layout.
    destruct f, o; cbn [style_separator B list_ascii_of_string app];
      rewrite !split_on_present, split_on_absent by auto;
      unfold max_len, len; cbn [fold_right]; lia.
  - unfold date_layout.
    destruct f, o; cbn [B list_ascii_of_string];
      rewrite !avoids_app; cbn [avoids forallb]; fold (avoids " " M);
      fold (avoids " " D); fold (avoids " " Y);
      rewrite !Sp by assumption; reflexivity.
Qed.

Lemma endswith_BC_last x c :
  Ascii.eqb "C" c = false -> endswith (x ++ [c]) (B "BC") = false.
Proof.
  intros H. unfold endswith. rewrite rev_app_distr.
  cbn [rev app B list_ascii_of_string startswith]. now rewrite H.
Qed.

Lemma endswith_BC_digits x ds :
  ds <> [] -> forallb is_digit ds = true -> endswith (x ++ ds) (B "BC") = false.
Proof.
  intros Hne Hd. destruct (exists_last Hne) as (ds' & c & ->).
  rewrite forallb_app in Hd. apply andb_true_iff in Hd as [_ Hc].
  cbn [forallb] in Hc. rewrite andb_true_r in Hc.
  rewrite app_assoc. apply endswith_BC_last. revert Hc. by_cases_on_char c.
Qed.

(** ** The date formats on texts that go on after the date *)

Lemma match_re_Y_chars {R} a b c e rest g (k : @cont R) r :
  is_digit a = true -> is_digit b = true -> is_digit c = true -> is_digit e = true ->
  k rest (("Y"%string, [a; b; c; e]) :: g) = Some r ->
  match_re re_Y ([a; b; c; e] ++ rest) g k = Some r.
Proof.
  intros Ha Hb Hc He Hk. unfold re_Y. apply match_group_prefix; [|exact Hk].
  intros k' E. unfold D. cbn [Seqs app].
  rewrite match_seq, (match_chr_take _ _ _ _ _ Ha).
  rewrite match_seq, (match_chr_take _ _ _ _ _ Hb).
  rewrite match_seq, (match_chr_take _ _ _ _ _ Hc).
  rewrite match_seq, (match_chr_take _ _ _ _ _ He).
  rewrite match_eps. exact E.
Qed.

(** The pattern of each style reads the date at the start of a text and
    leaves what follows. *)
Lemma style_match f o a b c e m dd rest :
  is_digit a = true -> is_digit b = true -> is_digit c = true -> is_digit e = true ->
  1 <= m <= 12 -> 1 <= dd <= 31 ->
  exists re g,
    format_regex (style_format f o) = Some re
    /\ re_match re (date_layout f o [a; b; c; e] (two m) (two dd) ++ rest)
       = Some (g, rest)
    /\ date_groups g [a; b; c; e] (two m) (two dd).
Proof.
  intros Ha Hb Hc He Hm Hd.
  destruct f, o; cbn [style_format date_layout];
    (eexists; eexists; split; [reflexivity|]);
    rewrite <- !app_assoc; cbn [B list_ascii_of_string app];
    (split;
     [ unfold re_match;
       repeat first
         [ rewrite match_seq
         | apply match_separator
         | apply (match_re_Y_chars a b c e); [assumption..|]
         | apply match_re_m; [assumption|]
         | apply match_re_d; [assumption|] ];
       rewrite match_eps; reflexivity
     | repeat split; reflexivity ]).
Qed.

Lemma strptime_unconverted text fmt re g c rest :
  format_regex fmt = Some re -> re_match re text = Some (g, c :: rest) ->
  strptime text fmt = Raise (ValueError (VE_unconverted (c :: rest))).
Proof. intros Hf Hm. unfold strptime. now rewrite Hf, Hm. Qed.

(** What [DateLoader.load] does with a parse that failed. *)
Lemma DateLoader_load_parse_failure self data e sep :
  nth_error (DateLoader._format self) 2 = Some sep ->
  decode_strptime data (DateLoader._format self) = Raise (ValueError e) ->
  DateLoader.load self data
  = if endswith data (B "BC") then Raise (DataError (bc_message data))
    else if longest_part sep data >? 4
         then Raise (DataError (after_9999_message data))
         else Raise (ValueError e).
Proof.
  intros S P. unfold DateLoader.load. rewrite P.
  rewrite (DateLoader_get_year_digits _ sep data S).
  apply DateLoader_raise_error.
Qed.

Lemma style_format_separator f o :
  nth_error (style_format f o) 2 = Some (style_separator f).
Proof. now destruct f, o. Qed.

Lemma date_layout_ascii f o Y M D :
  forallb is_digit Y = true -> forallb is_digit M = true ->
  forallb is_digit D = true -> is_ascii (date_layout f o Y M D) = true.
Proof.
  intros HY HM HD. unfold date_layout.
  pose proof (digits_ascii Y HY) as AY. pose proof (digits_ascii M HM) as AM.
  pose proof (digits_ascii D HD) as AD.
  destruct f, o; rewrite !is_ascii_app, AY, AM, AD; reflexivity.
Qed.

(** ** Dates the native type cannot hold *)

Lemma four_chars y :
  0 <= y <= 9999 ->
  exists a b c e,
    four y = [a; b; c; e]
    /\ is_digit a = true /\ is_digit b = true /\ is_digit c = true /\ is_digit e = true.
Proof.
  intros H. pose proof (four_digits y H) as Hd. unfold four in *.
  cbn [forallb] in Hd. rewrite !andb_true_iff in Hd.
  destruct Hd as (Ha & Hb & Hc & He & _). now eexists _, _, _, _.
Qed.

(** A date of the era before Christ, as the server writes it (the date, then
    [ BC]), and more generally any text that goes on after a date and ends
    with [BC], is answered with the [DataError] about BC dates, under every
    style. *)
Theorem date_before_christ_is_data_error f o d built rest :
  valid_date d = true ->
  built (B "DateStyle") = Some (datestyle f o) ->
  rest <> [] -> endswith (date_text f o d ++ rest) (B "BC") = true ->
  exists loader,
    DateLoader.init true built = Ok loader
    /\ DateLoader.load loader (date_text f o d ++ rest)
       = Raise (DataError (T "Python doesn't support BC date: got "
                           ++ decode_utf8_replace (date_text f o d ++ rest))).
Proof.
  intros Hv Hs Hne Hbc. destruct (valid_date_bounds d Hv) as (Hy & Hm & Hd).
  set (loader := {| DateLoader.base := {| connection := true |};
                    DateLoader._format := style_format f o |}).
  exists loader. split; [apply (DateLoader_init_style f o built Hs)|].
  assert (P : exists e, decode_strptime (date_text f o d ++ rest) (style_format f o)
                        = Raise (ValueError e)).
  { unfold decode_strptime. destruct (is_ascii (date_text f o d ++ rest)); [|now eexists].
    destruct (four_chars (year d)) as (a & b & c & e & E & Ha & Hb & Hc & He); [lia|].
    destruct (style_match f o a b c e (month d) (day d) rest Ha Hb Hc He Hm Hd)
      as (re & g & Hf & Hr & _).
    rewrite date_text_layout, E. destruct rest as [|x rest]; [congruence|].
    eexists. apply (strptime_unconverted _ _ re g x rest Hf Hr). }
  destruct P as [e P].
  rewrite (DateLoader_load_parse_failure loader _ e (style_separator f)
             (style_format_separator f o) P).
  now rewrite Hbc.
Qed.

Lemma date_before_christ_is_data_error_witness :
  exists loader,
    DateLoader.init true (session_with (B "DateStyle") (B "German, DMY")) = Ok loader
    /\ DateLoader.load loader (B "15.03.0044 BC")
       = Raise (DataError (T "Python doesn't support BC date: got 15.03.0044 BC")).
Proof.
  exact (date_before_christ_is_data_error German DMY (mk_date 44 3 15)
           (session_with (B "DateStyle") (B "German, DMY")) (B " BC")
           eq_refl eq_refl ltac:(discriminate) eq_refl).
Defined.

(** A date with a day the month does not have (30 February, 31 April) has
    the shape of its style and is refused by [strptime]: the loader passes
    that [ValueError] on, it does not turn it into a [DataError]. *)
Theorem impossible_date_is_value_error f o y m dd built :
  1 <= y <= 9999 -> 1 <= m <= 12 -> days_in_month y m < dd <= 31 ->
  built (B "DateStyle") = Some (datestyle f o) ->
  exists loader,
    DateLoader.init true built = Ok loader
    /\ DateLoader.load loader (date_text f o (mk_date y m dd))
       = Raise (ValueError VE_out_of_range).
Proof.
  intros Hy Hm Hd Hs.
  assert (Hd' : 1 <= dd <= 31).
  { unfold days_in_month in Hd.
    destruct (m =? 2); [destruct (is_leap y); lia|].
    destruct ((m =? 4) || (m =? 6) || (m =? 9) || (m =? 11)); lia. }
  set (loader := {| DateLoader.base := {| connection := true |};
                    DateLoader._format := style_format f o |}).
  exists loader. split; [apply (DateLoader_init_style f o built Hs)|].
  set (d := mk_date y m dd).
  assert (Hinv : valid_date d = false).
  { unfold valid_date, d. cbn [year month day].
    replace (dd <=? days_in_month y m) with false by (symmetry; apply Z.leb_gt; lia).
    now rewrite !andb_false_r. }
  pose proof (four_digits y ltac:(lia)) as DY.
  pose proof (two_digits m ltac:(lia)) as DM.
  pose proof (two_digits dd ltac:(lia)) as DD.
  assert (P : decode_strptime (date_text f o d) (style_format f o)
              = Raise (ValueError VE_out_of_range)).
  { unfold decode_strptime. rewrite date_text_layout.
    rewrite date_layout_ascii by assumption.
    destruct (four_chars y) as (a & b & c & e & E & Ha & Hb & Hc & He); [lia|].
    destruct (style_match f o a b c e m dd [] Ha Hb Hc He Hm Hd')
      as (re & g & Hf & Hr & GY & Gm & Gd & Gb & GH & GM & GS & Gf & Gz).
    rewrite app_nil_r in Hr. cbn [year month day d]. rewrite E.
    unfold strptime. rewrite Hf, Hr. unfold group_int.
    rewrite GY, Gm, Gd, Gb, GH, GM, GS, Gf, Gz. cbn [bind].
    rewrite <- E, four_value, !two_value by lia.
    fold d. now rewrite Hinv. }
  rewrite (DateLoader_load_parse_failure loader _ _ (style_separator f)
             (style_format_separator f o) P).
  rewrite date_text_layout. cbn [year month day d].
  assert (EB : endswith (date_layout f o (four y) (two m) (two dd)) (B "BC") = false).
  { unfold date_layout. destruct f, o; rewrite ?app_assoc;
      now apply endswith_BC_digits. }
  rewrite EB, layout_parts by assumption.
  now replace (Z.max (len (four y)) (Z.max (len (two m)) (len (two dd))) >? 4)
    with false by reflexivity.
Qed.

Lemma impossible_date_is_value_error_witness :
  exists loader,
    DateLoader.init true (session_with (B "DateStyle") (B "ISO, DMY")) = Ok loader
    /\ DateLoader.load loader (B "2023-02-29") = Raise (ValueError VE_out_of_range).
Proof.
  refine (impossible_date_is_value_error ISO DMY 2023 2 29
            (session_with (B "DateStyle") (B "ISO, DMY")) _ _ _ eq_refl);
    vm_compute; split; congruence.
Defined.

Lemma digit_not_hyphen_i c : is_digit c = true -> is_char_i "-" c = false.
Proof. by_cases_on_char c. Qed.

(** Under the ISO format a fifth digit where the hyphen should be stops the
    match. *)
Lemma iso_year_of_five_digits a b c e x rest :
  is_digit a = true -> is_digit b = true -> is_digit c = true -> is_digit e = true ->
  is_digit x = true ->
  strptime (a :: b :: c :: e :: x :: rest) (B "%Y-%m-%d")
  = Raise (ValueError (VE_no_match (a :: b :: c :: e :: x :: rest) (B "%Y-%m-%d"))).
Proof.
  intros Ha Hb Hc He Hx. unfold strptime.
  change (format_regex (B "%Y-%m-%d"))
    with (Some (Seq re_Y (Seq (Chr (is_char_i "-"))
                  (Seq re_m (Seq (Chr (is_char_i "-")) (Seq re_d Eps)))))).
  cbv iota beta.
  replace (re_match _ (a :: b :: c :: e :: x :: rest)) with (@None (groups * bytes));
    [reflexivity|].
  symmetry. unfold re_match, re_Y, D. rewrite match_seq. cbn [match_re Seqs].
  rewrite Ha, Hb, Hc, He. now rewrite (digit_not_hyphen_i x Hx).
Qed.

(** A year of five digits or more is answered with the [DataError] about
    years after 9999, under every style. *)
Theorem year_beyond_9999_is_data_error f o ys m dd built :
  forallb is_digit ys = true -> 5 <= len ys -> 1 <= m <= 12 -> 1 <= dd <= 31 ->
  built (B "DateStyle") = Some (datestyle f o) ->
  exists loader,
    DateLoader.init true built = Ok loader
    /\ DateLoader.load loader (date_layout f o ys (two m) (two dd))
       = Raise (DataError
                  (T "Python date doesn't support years after 9999: got "
                   ++ str_of_bytes (date_layout f o ys (two m) (two dd)))).
Proof.
  intros Hys Hlen Hm Hd Hs.
  set (loader := {| DateLoader.base := {| connection := true |};
                    DateLoader._format := style_format f o |}).
  exists loader. split; [apply (DateLoader_init_style f o built Hs)|].
  pose proof (two_digits m ltac:(lia)) as DM.
  pose proof (two_digits dd ltac:(lia)) as DD.
  set (text := date_layout f o ys (two m) (two dd)).
  assert (A : is_ascii text = true) by now apply date_layout_ascii.
  destruct ys as [|a [|b [|c [|e [|x more]]]]]; try (unfold len in Hlen; simpl in Hlen; lia).
  cbn [forallb] in Hys. rewrite !andb_true_iff in Hys.
  destruct Hys as (Ha & Hb & Hc & He & Hx & Hmore).
  assert (Hys : forallb is_digit (a :: b :: c :: e :: x :: more) = true)
    by (cbn [forallb]; now rewrite Ha, Hb, Hc, He, Hx, Hmore).
  assert (P : exists err, decode_strptime text (style_format f o)
                          = Raise (ValueError err)).
  { unfold decode_strptime. rewrite A.
    destruct f.
    - eexists. unfold text. cbn [date_layout style_format app]. destruct o;
        now apply iso_year_of_five_digits.
    - destruct (style_match German o a b c e m dd (x :: more) Ha Hb Hc He Hm Hd)
        as (re & g & Hf & Hr & _).
      eexists. apply (strptime_unconverted _ _ re g x more Hf).
      replace text
        with (date_layout German o [a; b; c; e] (two m) (two dd) ++ x :: more);
        [exact Hr|].
      unfold text, date_layout. destruct o; now rewrite <- !app_assoc.
    - destruct (style_match SQL o a b c e m dd (x :: more) Ha Hb Hc He Hm Hd)
        as (re & g & Hf & Hr & _).
      eexists. apply (strptime_unconverted _ _ re g x more Hf).
      replace text
        with (date_layout SQL o [a; b; c; e] (two m) (two dd) ++ x :: more);
        [exact Hr|].
      unfold text, date_layout. destruct o; now rewrite <- !app_assoc.
    - destruct (style_match Postgres o a b c e m dd (x :: more) Ha Hb Hc He Hm Hd)
        as (re & g & Hf & Hr & _).
      eexists. apply (strptime_unconverted _ _ re g x more Hf).
      replace text
        with (date_layout Postgres o [a; b; c; e] (two m) (two dd) ++ x :: more);
        [exact Hr|].
      unfold text, date_layout. destruct o; now rewrite <- !app_assoc. }
  destruct P as [err P].
  rewrite (DateLoader_load_parse_failure loader _ err (style_separator f)
             (style_format_separator f o) P).
  assert (EB : endswith text (B "BC") = false).
  { unfold text, date_layout. destruct f, o; rewrite ?app_assoc;
      now apply endswith_BC_digits. }
  rewrite EB. unfold text at 1. rewrite layout_parts by assumption.
  replace (Z.max (len (a :: b :: c :: e :: x :: more))
             (Z.max (len (two m)) (len (two dd))) >? 4) with true
    by (symmetry; apply Z.gtb_lt; lia).
  unfold after_9999_message. now rewrite decode_utf8_replace_ascii.
Qed.

Lemma year_beyond_9999_is_data_error_witness :
  exists loader,
    DateLoader.init true (session_with (B "DateStyle") (B "SQL, MDY")) = Ok loader
    /\ DateLoader.load loader (B "12/31/10000")
       = Raise (DataError
                  (T "Python date doesn't support years after 9999: got 12/31/10000")).
Proof.
  refine (year_beyond_9999_is_data_error SQL MDY (B "10000") 12 31
            (session_with (B "DateStyle") (B "SQL, MDY")) eq_refl _ _ _ eq_refl);
    vm_compute; try split; congruence.
Defined.

(** ** Decimal numerals of a fixed width *)

Lemma decimal_fuel_acc fuel n acc :
  decimal_fuel fuel n acc = decimal_fuel fuel n [] ++ acc.
Proof.
  revert n acc. induction fuel as [|fuel IH]; intros n acc; [reflexivity|].
  cbn [decimal_fuel]. destruct (n <? 10); [reflexivity|].
  rewrite (IH _ (_ :: acc)), (IH _ [_]). now rewrite <- app_assoc.
Qed.

Lemma decimal_fuel_enough f1 f2 n acc :
  (0 < f1)%nat -> (0 < f2)%nat ->
  0 <= n -> n < 2 ^ Z.of_nat f1 -> n < 2 ^ Z.of_nat f2 ->
  decimal_fuel f1 n acc = decimal_fuel f2 n acc.
Proof.
  revert f2 n acc. induction f1 as [|f1 IH]; intros f2 n acc H1 H2 Hn B1 B2; [lia|].
  destruct f2 as [|f2]; [lia|]. cbn [decimal_fuel].
  destruct (Z.ltb_spec n 10); [reflexivity|].
  rewrite Nat2Z.inj_succ, Z.pow_succ_r in B1, B2 by lia.
  assert (Q : 1 <= n / 10 /\ n / 10 < 2 ^ Z.of_nat f1 /\ n / 10 < 2 ^ Z.of_nat f2)
    by (Z.to_euclidean_division_equations; lia).
  destruct Q as (Q0 & Q1 & Q2).
  apply IH; try lia.
  - destruct f1; [simpl in Q1; lia|lia].
  - destruct f2; [simpl in Q2; lia|lia].
Qed.

Lemma decimal_small n : 0 <= n < 10 -> decimal n = [digit_char n].
Proof.
  intros H. unfold decimal. cbn [decimal_fuel].
  destruct (Z.ltb_spec n 10); [|lia]. now rewrite Z.mod_small by lia.
Qed.

Lemma decimal_step n :
  10 <= n -> decimal n = decimal (n / 10) ++ [digit_char (n mod 10)].
Proof.
  intros H. unfold decimal at 1. cbn [decimal_fuel].
  destruct (Z.ltb_spec n 10); [lia|].
  rewrite decimal_fuel_acc. f_equal. unfold decimal.
  pose proof (Z.log2_spec n ltac:(lia)) as [L1 L2].
  assert (Q : 1 <= n / 10) by (Z.to_euclidean_division_equations; lia).
  pose proof (Z.log2_spec (n / 10) ltac:(lia)) as [M1 M2].
  pose proof (Z.log2_nonneg (n / 10)) as M0.
  assert (3 <= Z.log2 n) by (apply Z.log2_le_pow2; simpl; lia).
  apply decimal_fuel_enough; try lia.
  - rewrite Z2Nat.id by lia.
    rewrite Z.pow_succ_r in L2 by lia.
    Z.to_euclidean_division_equations; lia.
  - rewrite Nat2Z.inj_succ, Z2Nat.id by lia. exact M2.
Qed.

Lemma decimal_length n w :
  0 <= n < 10 ^ Z.of_nat (S w) -> (List.length (decimal n) <= S w)%nat.
Proof.
  revert n. induction w as [|w IH]; intros n H.
  - rewrite decimal_small by (simpl in H; lia). simpl. lia.
  - destruct (Z.ltb_spec n 10).
    + rewrite decimal_small by lia. simpl. lia.
    + rewrite decimal_step, length_app by lia. simpl.
      rewrite Nat2Z.inj_succ, Z.pow_succ_r in H by lia.
      specialize (IH (n / 10)).
      assert (0 <= n / 10 < 10 ^ Z.of_nat (S w))
        by (Z.to_euclidean_division_equations; lia).
      lia.
Qed.

Lemma repeat_snoc {A} (x : A) n : repeat x n ++ [x] = repeat x (S n).
Proof. induction n as [|n IH]; [reflexivity|]. simpl. now rewrite IH. Qed.

(** [%0wd] of a number of at most [w] digits is the number written with
    exactly [w] digits. *)
Lemma pct_0d_fixed w n :
  0 <= n < 10 ^ Z.of_nat (S w) -> pct_0d (S w) n = fixed (S w) n.
Proof.
  revert n. induction w as [|w IH]; intros n H.
  - unfold pct_0d. rewrite decimal_small by (simpl in H; lia).
    simpl. now rewrite Z.mod_small by (simpl in H; lia).
  - change (fixed (S (S w)) n)
      with (fixed (S w) (n / 10) ++ [digit_char (n mod 10)]).
    destruct (Z.ltb_spec n 10).
    + replace (n / 10) with 0 by (Z.to_euclidean_division_equations; lia).
      rewrite (Z.mod_small n 10) by lia.
      assert (Z0 : 0 <= 0 < 10 ^ Z.of_nat (S w))
        by (split; [lia|apply Z.pow_pos_nonneg; lia]).
      rewrite <- (IH 0 Z0). unfold pct_0d. rewrite !decimal_small by lia.
      cbn [List.length]. replace (S (S w) - 1)%nat with (S w) by lia.
      replace (S w - 1)%nat with w by lia.
      change [digit_char 0] with ["0"%char].
      now rewrite <- repeat_snoc.
    + rewrite Nat2Z.inj_succ, Z.pow_succ_r in H by lia.
      assert (Q : 0 <= n / 10 < 10 ^ Z.of_nat (S w))
        by (Z.to_euclidean_division_equations; lia).
      rewrite <- (IH _ Q). unfold pct_0d. rewrite (decimal_step n) by lia.
      rewrite length_app. cbn [List.length].
      pose proof (decimal_length (n / 10) w Q).
      replace (S (S w) - (List.length (decimal (n / 10)) + 1))%nat
        with (S w - List.length (decimal (n / 10)))%nat by lia.
      now rewrite app_assoc.
Qed.

Lemma digits_val_snoc a c : digits_val (a ++ [c]) = 10 * digits_val a + digit_val c.
Proof. unfold digits_val. now rewrite fold_left_app. Qed.

Lemma fixed_facts w n :
  0 <= n < 10 ^ Z.of_nat w ->
  digits_val (fixed w n) = n /\ forallb is_digit (fixed w n) = true
  /\ List.length (fixed w n) = w.
Proof.
  revert n. induction w as [|w IH]; intros n H.
  - simpl in H. repeat split. cbn. lia.
  - rewrite Nat2Z.inj_succ, Z.pow_succ_r in H by lia.
    assert (Q : 0 <= n / 10 < 10 ^ Z.of_nat w /\ 0 <= n mod 10 <= 9)
      by (Z.to_euclidean_division_equations; lia).
    destruct Q as (Q & Qm). destruct (IH _ Q) as (V & Dg & L).
    destruct (digit_char_facts _ Qm) as (Dc & Vc & _).
    cbn [fixed]. rewrite digits_val_snoc, forallb_app, length_app, V, Dg, L, Vc.
    cbn [forallb List.length]. rewrite Dc.
    repeat split; [Z.to_euclidean_division_equations; lia|lia].
Qed.

(** ** The patterns of the time directives on their fields *)

Section TimeDirectives.
Context {R : Type}.
Implicit Types (k : @cont R) (rest : bytes) (g : groups).

Ltac run_alternatives E :=
  intros ? ? ? ? E; vm_compute; rewrite E; reflexivity.

Lemma match_hour_alternatives h :
  0 <= h < 0 + Z.of_nat 24 ->
  forall rest g k r,
    k rest g = Some r ->
    match_re (Alts (Seq (Chr (is_char "2")) (Chr (in_range "0" "3")))
                [Seq (Chr (in_range "0" "1")) D; D])
      (two h ++ rest) g k = Some r.
Proof.
  revert h.
  apply (Z_range_cases
           (fun h => forall rest g k r, k rest g = Some r ->
                     match_re _ (two h ++ rest) g k = Some r) 0 24).
  intros i Hi.
  do 24 (destruct i as [|i]; [run_alternatives E|]). lia.
Qed.

Lemma match_minute_alternatives m :
  0 <= m < 0 + Z.of_nat 60 ->
  forall rest g k r,
    k rest g = Some r ->
    match_re (Alts (Seq (Chr (in_range "0" "5")) D) [D]) (two m ++ rest) g k = Some r.
Proof.
  revert m.
  apply (Z_range_cases
           (fun m => forall rest g k r, k rest g = Some r ->
                     match_re _ (two m ++ rest) g k = Some r) 0 60).
  intros i Hi.
  do 60 (destruct i as [|i]; [run_alternatives E|]). lia.
Qed.

Lemma match_second_alternatives s :
  0 <= s < 0 + Z.of_nat 60 ->
  forall rest g k r,
    k rest g = Some r ->
    match_re (Alts (Seq (Chr (is_char "6")) (Chr (in_range "0" "1")))
                [Seq (Chr (in_range "0" "5")) D; D])
      (two s ++ rest) g k = Some r.
Proof.
  revert s.
  apply (Z_range_cases
           (fun s => forall rest g k r, k rest g = Some r ->
                     match_re _ (two s ++ rest) g k = Some r) 0 60).
  intros i Hi.
  do 60 (destruct i as [|i]; [run_alternatives E|]). lia.
Qed.

Lemma match_re_H h rest g k r :
  0 <= h < 24 ->
  k rest (("H"%string, two h) :: g) = Some r ->
  match_re re_H (two h ++ rest) g k = Some r.
Proof.
  intros H Hk. unfold re_H. apply match_group_prefix; [|exact Hk].
  intros k' E. apply match_hour_alternatives; [lia|exact E].
Qed.

Lemma match_re_M m rest g k r :
  0 <= m < 60 ->
  k rest (("M"%string, two m) :: g) = Some r ->
  match_re re_M (two m ++ rest) g k = Some r.
Proof.
  intros H Hk. unfold re_M. apply match_group_prefix; [|exact Hk].
  intros k' E. apply match_minute_alternatives; [lia|exact E].
Qed.

Lemma match_re_S s rest g k r :
  0 <= s < 60 ->
  k rest (("S"%string, two s) :: g) = Some r ->
  match_re re_S (two s ++ rest) g k = Some r.
Proof.
  intros H Hk. unfold re_S. apply match_group_prefix; [|exact Hk].
  intros k' E. apply match_second_alternatives; [lia|exact E].
Qed.

(** Six digits are a fraction read whole. *)
Lemma match_re_f ds rest g k r :
  List.length ds = 6%nat -> forallb is_digit ds = true ->
  k rest (("f"%string, ds) :: g) = Some r ->
  match_re re_f (ds ++ rest) g k = Some r.
Proof.
  intros L Hd Hk. unfold re_f. apply match_group_prefix; [|exact Hk].
  intros k' E.
  destruct ds as [|a1 [|a2 [|a3 [|a4 [|a5 [|a6 [|]]]]]]]; try discriminate.
  cbn [forallb] in Hd. rewrite !andb_true_iff in Hd.
  destruct Hd as (H1 & H2 & H3 & H4 & H5 & H6 & _).
  unfold digits_1_6, D. cbn [app].
  rewrite match_seq, (match_chr_take _ _ _ _ _ H1). apply match_opt_take.
  rewrite match_seq, (match_chr_take _ _ _ _ _ H2). apply match_opt_take.
  rewrite match_seq, (match_chr_take _ _ _ _ _ H3). apply match_opt_take.
  rewrite match_seq, (match_chr_take _ _ _ _ _ H4). apply match_opt_take.
  rewrite match_seq, (match_chr_take _ _ _ _ _ H5). apply match_opt_take.
  now rewrite (match_chr_take _ _ _ _ _ H6).
Qed.

End TimeDirectives.

Lemma pad6_six ds : List.length ds = 6%nat -> pad6 ds = ds.
Proof. intros L. unfold pad6. rewrite L. cbn. apply app_nil_r. Qed.

Lemma contains_app c a b : contains c (a ++ b) = contains c a || contains c b.
Proof. apply existsb_app. Qed.

Lemma contains_digits c ds :
  is_digit c = false -> forallb is_digit ds = true -> contains c ds = false.
Proof.
  intros Hc. induction ds as [|d ds IH]; [reflexivity|]. cbn [forallb contains existsb].
  intros H. apply andb_true_iff in H as [Hd Hds]. fold (contains c ds).
  rewrite (IH Hds), orb_false_r.
  destruct (Ascii.eqb_spec c d) as [->|]; congruence.
Qed.

(** ** Round trip of times *)

Ltac match_fields :=
  unfold re_match;
  repeat first
    [ rewrite match_seq
    | apply match_separator
    | apply match_re_H; [lia|]
    | apply match_re_M; [lia|]
    | apply match_re_S; [lia|]
    | apply match_re_m; [lia|]
    | apply match_re_d; [lia|]
    | apply match_re_f; [assumption..|] ];
  rewrite ?match_eps.

Lemma strptime_time h m s :
  0 <= h < 24 -> 0 <= m < 60 -> 0 <= s < 60 ->
  strptime (two h ++ B ":" ++ two m ++ B ":" ++ two s) (B "%H:%M:%S")
  = Ok (mk_datetime (mk_date 1900 1 1) (mk_time h m s 0 None)).
Proof.
  intros Hh Hm Hs. unfold strptime.
  change (format_regex (B "%H:%M:%S"))
    with (Some (Seq re_H (Seq (Chr (is_char_i ":"))
                  (Seq re_M (Seq (Chr (is_char_i ":")) (Seq re_S Eps)))))).
  cbv iota beta.
  set (g := [("S"%string, two s); ("M"%string, two m); ("H"%string, two h)]).
  replace (re_match _ _) with (Some (g, @nil ascii)).
  - cbv iota beta. unfold group_int.
    change (group g "Y") with (@None bytes). change (group g "b") with (@None bytes).
    change (group g "m") with (@None bytes). change (group g "d") with (@None bytes).
    change (group g "f") with (@None bytes). change (group g "z") with (@None bytes).
    change (group g "H") with (Some (two h)). change (group g "M") with (Some (two m)).
    change (group g "S") with (Some (two s)). cbn [bind].
    rewrite !two_value by lia.
    change (negb (valid_date (mk_date 1900 1 1))) with false. cbv iota.
    now replace (59 <? s) with false by (symmetry; apply Z.ltb_ge; lia).
  - symmetry. cbn [B list_ascii_of_string app].
    rewrite <- (app_nil_r (two s)). match_fields. reflexivity.
Qed.

Lemma strptime_time_micro h m s us :
  0 <= h < 24 -> 0 <= m < 60 -> 0 <= s < 60 -> 0 <= us < 1000000 ->
  strptime (two h ++ B ":" ++ two m ++ B ":" ++ two s ++ B "." ++ fixed 6 us)
    (B "%H:%M:%S.%f")
  = Ok (mk_datetime (mk_date 1900 1 1) (mk_time h m s us None)).
Proof.
  intros Hh Hm Hs Hus. destruct (fixed_facts 6 us Hus) as (V & Dg & L).
  unfold strptime.
  change (format_regex (B "%H:%M:%S.%f"))
    with (Some (Seq re_H (Seq (Chr (is_char_i ":"))
                  (Seq re_M (Seq (Chr (is_char_i ":"))
                     (Seq re_S (Seq (Chr (is_char_i ".")) (Seq re_f Eps)))))))).
  cbv iota beta.
  set (g := [("f"%string, fixed 6 us); ("S"%string, two s);
             ("M"%string, two m); ("H"%string, two h)]).
  replace (re_match _ _) with (Some (g, @nil ascii)).
  - cbv iota beta. unfold group_int.
    change (group g "Y") with (@None bytes). change (group g "b") with (@None bytes).
    change (group g "m") with (@None bytes). change (group g "d") with (@None bytes).
    change (group g "z") with (@None bytes).
    change (group g "f") with (Some (fixed 6 us)).
    change (group g "H") with (Some (two h)). change (group g "M") with (Some (two m)).
    change (group g "S") with (Some (two s)). cbn [bind].
    rewrite !two_value, (pad6_six _ L), V by lia.
    change (negb (valid_date (mk_date 1900 1 1))) with false. cbv iota.
    now replace (59 <? s) with false by (symmetry; apply Z.ltb_ge; lia).
  - symmetry. cbn [B list_ascii_of_string app].
    rewrite <- (app_nil_r (fixed 6 us)). match_fields. reflexivity.
Qed.

Lemma valid_time_bounds t :
  valid_time t = true ->
  0 <= hour t < 24 /\ 0 <= minute t < 60 /\ 0 <= second t < 60
  /\ 0 <= microsecond t < 1000000.
Proof.
  unfold valid_time. intros H. repeat (apply andb_true_iff in H as [H ?]). lia.
Qed.

(** The text of a time without a zone: with a point exactly when there are
    microseconds. *)
Lemma time_str_naive t :
  valid_time t = true -> time_tz t = None ->
  time_str t
  = two (hour t) ++ B ":" ++ two (minute t) ++ B ":" ++ two (second t)
    ++ (if microsecond t =? 0 then [] else B "." ++ fixed 6 (microsecond t)).
Proof.
  intros Hv Hz. destruct (valid_time_bounds t Hv) as (Hh & Hm & Hs & Hus).
  unfold time_str. rewrite Hz. cbn [offset_str]. rewrite app_nil_r.
  rewrite !pct_0d_two by lia.
  destruct (microsecond t =? 0); [reflexivity|].
  now rewrite (pct_0d_fixed 5) by (simpl; lia).
Qed.

Lemma clock_text_facts h m s :
  0 <= h < 24 -> 0 <= m < 60 -> 0 <= s < 60 ->
  contains "." (two h ++ B ":" ++ two m ++ B ":" ++ two s) = false
  /\ is_ascii (two h ++ B ":" ++ two m ++ B ":" ++ two s) = true.
Proof.
  intros Hh Hm Hs.
  pose proof (two_digits h ltac:(lia)) as Dh.
  pose proof (two_digits m ltac:(lia)) as Dm.
  pose proof (two_digits s ltac:(lia)) as Ds.
  pose proof (contains_digits "." _ eq_refl Dh) as Ch.
  pose proof (contains_digits "." _ eq_refl Dm) as Cm.
  pose proof (contains_digits "." _ eq_refl Ds) as Cs.
  pose proof (digits_ascii _ Dh) as Ah. pose proof (digits_ascii _ Dm) as Am.
  pose proof (digits_ascii _ Ds) as As.
  split.
  - now rewrite !contains_app, Ch, Cm, Cs.
  - now rewrite !is_ascii_app, Ah, Am, As.
Qed.

(** What the time dumper writes for a time without a zone, the time loader
    reads back. *)
Theorem time_round_trip (self : TimeDumper.t) (t : time) :
  valid_time t = true -> time_tz t = None ->
  TimeLoader.load (TimeDumper.dump self t) = Ok t.
Proof.
  intros Hv Hz. destruct (valid_time_bounds t Hv) as (Hh & Hm & Hs & Hus).
  unfold TimeDumper.dump. rewrite (time_str_naive t Hv Hz).
  destruct (clock_text_facts _ _ _ Hh Hm Hs) as (C & A).
  destruct t as [h m s us tz]. cbn [hour minute second microsecond time_tz] in *.
  subst tz. unfold TimeLoader.load, decode_strptime.
  destruct (Z.eqb_spec us 0) as [->|Hne].
  - rewrite !app_nil_r || idtac.
    replace (two s ++ []) with (two s) by (symmetry; apply app_nil_r).
    rewrite C, A. change TimeLoader._format_no_micro with (B "%H:%M:%S").
    now rewrite strptime_time.
  - destruct (fixed_facts 6 us Hus) as (_ & Dg & _).
    replace (contains "." _) with true.
    + replace (is_ascii _) with true.
      * change TimeLoader._format with (B "%H:%M:%S.%f").
        now rewrite strptime_time_micro.
      * symmetry. rewrite !app_assoc, is_ascii_app, <- !app_assoc.
        rewrite (digits_ascii _ Dg), andb_true_r.
        rewrite !app_assoc, is_ascii_app, <- !app_assoc. now rewrite A.
    + symmetry. rewrite !contains_app. cbn. now rewrite !orb_true_r.
Qed.

Lemma time_round_trip_witness :
  TimeLoader.load (TimeDumper.dump (TimeDumper.init false (fun _ => None))
                     (mk_time 23 59 59 120 None))
  = Ok (mk_time 23 59 59 120 None)
  /\ TimeDumper.dump (TimeDumper.init false (fun _ => None)) (mk_time 23 59 59 120 None)
     = B "23:59:59.000120".
Proof.
  split; [|reflexivity].
  exact (time_round_trip _ (mk_time 23 59 59 120 None) eq_refl eq_refl).
Defined.

(** ** Round trip of timestamps in the ISO style *)

Lemma two_stops_uspace n rest : 0 <= n <= 99 -> stops is_uspace (two n ++ rest) = true.
Proof.
  intros H. destruct (two_bounds n H) as (H1 & _).
  destruct (digit_char_facts _ H1) as (_ & _ & _ & S1).
  unfold two. cbn [app stops]. now rewrite S1.
Qed.

Lemma match_blank {R} rest g (k : @cont R) r :
  stops is_uspace rest = true -> k rest g = Some r ->
  match_re (Plus is_uspace) (" "%char :: rest) g k = Some r.
Proof.
  intros Hs Hk. now apply (match_plus_greedy is_uspace [" "%char] rest).
Qed.

Lemma strptime_timestamp d h m s :
  valid_date d = true -> 0 <= h < 24 -> 0 <= m < 60 -> 0 <= s < 60 ->
  strptime (four (year d) ++ B "-" ++ two (month d) ++ B "-" ++ two (day d) ++ B " "
            ++ two h ++ B ":" ++ two m ++ B ":" ++ two s)
    (B "%Y-%m-%d %H:%M:%S")
  = Ok (mk_datetime d (mk_time h m s 0 None)).
Proof.
  intros Hv Hh Hm Hs. destruct (valid_date_bounds d Hv) as (By & Bm & Bd).
  unfold strptime.
  change (format_regex (B "%Y-%m-%d %H:%M:%S"))
    with (Some (Seq re_Y (Seq (Chr (is_char_i "-")) (Seq re_m (Seq (Chr (is_char_i "-"))
                  (Seq re_d (Seq (Plus is_uspace)
                     (Seq re_H (Seq (Chr (is_char_i ":"))
                        (Seq re_M (Seq (Chr (is_char_i ":")) (Seq re_S Eps)))))))))))).
  cbv iota beta.
  set (g := [("S"%string, two s); ("M"%string, two m); ("H"%string, two h);
             ("d"%string, two (day d)); ("m"%string, two (month d));
             ("Y"%string, four (year d))]).
  replace (re_match _ _) with (Some (g, @nil ascii)).
  - cbv iota beta. unfold group_int.
    change (group g "b") with (@None bytes).
    change (group g "f") with (@None bytes). change (group g "z") with (@None bytes).
    change (group g "Y") with (Some (four (year d))).
    change (group g "m") with (Some (two (month d))).
    change (group g "d") with (Some (two (day d))).
    change (group g "H") with (Some (two h)). change (group g "M") with (Some (two m)).
    change (group g "S") with (Some (two s)). cbn [bind].
    rewrite four_value, !two_value by lia.
    destruct d as [y mo dd]. cbn [year month day] in *. rewrite Hv. cbv iota. cbn [negb].
    now replace (59 <? s) with false by (symmetry; apply Z.ltb_ge; lia).
  - symmetry. unfold re_match. rewrite match_seq. apply match_re_Y; [lia|].
    cbn [B list_ascii_of_string app].
    rewrite match_seq. apply match_separator.
    rewrite match_seq. apply match_re_m; [lia|].
    rewrite match_seq. apply match_separator.
    rewrite match_seq. apply match_re_d; [lia|].
    rewrite match_seq. apply match_blank; [apply two_stops_uspace; lia|].
    rewrite <- (app_nil_r (two s)). match_fields. reflexivity.
Qed.

Lemma strptime_timestamp_micro d h m s us :
  valid_date d = true -> 0 <= h < 24 -> 0 <= m < 60 -> 0 <= s < 60 ->
  0 <= us < 1000000 ->
  strptime (four (year d) ++ B "-" ++ two (month d) ++ B "-" ++ two (day d) ++ B " "
            ++ two h ++ B ":" ++ two m ++ B ":" ++ two s ++ B "." ++ fixed 6 us)
    (B "%Y-%m-%d %H:%M:%S.%f")
  = Ok (mk_datetime d (mk_time h m s us None)).
Proof.
  intros Hv Hh Hm Hs Hus. destruct (valid_date_bounds d Hv) as (By & Bm & Bd).
  destruct (fixed_facts 6 us Hus) as (V & Dg & L).
  unfold strptime.
  change (format_regex (B "%Y-%m-%d %H:%M:%S.%f"))
    with (Some (Seq re_Y (Seq (Chr (is_char_i "-")) (Seq re_m (Seq (Chr (is_char_i "-"))
                  (Seq re_d (Seq (Plus is_uspace)
                     (Seq re_H (Seq (Chr (is_char_i ":"))
                        (Seq re_M (Seq (Chr (is_char_i ":"))
                           (Seq re_S (Seq (Chr (is_char_i "."))
                              (Seq re_f Eps)))))))))))))).
  cbv iota beta.
  set (g := [("f"%string, fixed 6 us);
             ("S"%string, two s); ("M"%string, two m); ("H"%string, two h);
             ("d"%string, two (day d)); ("m"%string, two (month d));
             ("Y"%string, four (year d))]).
  replace (re_match _ _) with (Some (g, @nil ascii)).
  - cbv iota beta. unfold group_int.
    change (group g "b") with (@None bytes). change (group g "z") with (@None bytes).
    change (group g "f") with (Some (fixed 6 us)).
    change (group g "Y") with (Some (four (year d))).
    change (group g "m") with (Some (two (month d))).
    change (group g "d") with (Some (two (day d))).
    change (group g "H") with (Some (two h)). change (group g "M") with (Some (two m)).
    change (group g "S") with (Some (two s)). cbn [bind].
    rewrite four_value, !two_value, (pad6_six _ L), V by lia.
    destruct d as [y mo dd]. cbn [year month day] in *. rewrite Hv. cbv iota. cbn [negb].
    now replace (59 <? s) with false by (symmetry; apply Z.ltb_ge; lia).
  - symmetry. unfold re_match. rewrite match_seq. apply match_re_Y; [lia|].
    cbn [B list_ascii_of_string app].
    rewrite match_seq. apply match_separator.
    rewrite match_seq. apply match_re_m; [lia|].
    rewrite match_seq. apply match_separator.
    rewrite match_seq. apply match_re_d; [lia|].
    rewrite match_seq. apply match_blank; [apply two_stops_uspace; lia|].
    rewrite <- (app_nil_r (fixed 6 us)). match_fields. reflexivity.
Qed.

Lemma TimestampLoader_init_iso ctx built self :
  TimestampLoader.init ctx built = Ok self ->
  startswith (_get_datestyle {| connection := ctx |} built) (B "I") = true ->
  TimestampLoader._format self = B "%Y-%m-%d %H:%M:%S.%f"
  /\ TimestampLoader._format_no_micro self = B "%Y-%m-%d %H:%M:%S".
Proof.
  unfold TimestampLoader.init, TimestampLoader._format_from_context.
  intros H Hs. rewrite Hs in H. cbn [bind] in H. injection H as <-.
  split; reflexivity.
Qed.

(** What the timestamp dumper writes for a timestamp without a zone, a
    timestamp loader built under an ISO style reads back, whatever the
    session says at the call. *)
Theorem timestamp_round_trip ctx built live self (dumper : DateTimeDumper.t) dt :
  TimestampLoader.init ctx built = Ok self ->
  startswith (_get_datestyle {| connection := ctx |} built) (B "I") = true ->
  valid_date (dt_date dt) = true -> valid_time (dt_time dt) = true ->
  time_tz (dt_time dt) = None ->
  TimestampLoader.load self live (DateTimeDumper.dump dumper dt) = Ok dt.
Proof.
  intros Hi Hs Hd Ht Hz.
  destruct (TimestampLoader_init_iso ctx built self Hi Hs) as (F1 & F2).
  destruct (valid_date_bounds _ Hd) as (By & Bm & Bd).
  destruct (valid_time_bounds _ Ht) as (Hh & Hm & Hsec & Hus).
  unfold DateTimeDumper.dump, datetime_str.
  rewrite (date_str_iso _ Hd), (time_str_naive _ Ht Hz).
  destruct dt as [d [h m s us tz]].
  cbn [dt_date dt_time hour minute second microsecond time_tz] in *. subst tz.
  rewrite <- !app_assoc.
  pose proof (four_ascii (year d) ltac:(lia)) as AY.
  pose proof (two_ascii (month d) ltac:(lia)) as AM.
  pose proof (two_ascii (day d) ltac:(lia)) as AD.
  pose proof (two_ascii h ltac:(lia)) as Ah.
  pose proof (two_ascii m ltac:(lia)) as Ami.
  pose proof (two_ascii s ltac:(lia)) as Ase.
  unfold TimestampLoader.load, decode_strptime, TimestampLoader.has_micro.
  rewrite F1, F2.
  destruct (Z.eqb_spec us 0) as [->|Hne].
  - replace (two s ++ []) with (two s) by (symmetry; apply app_nil_r).
    replace (contains "." (skipn 19 _)) with false by reflexivity.
    replace (is_ascii _) with true.
    + now rewrite strptime_timestamp.
    + symmetry. rewrite !is_ascii_app, AY, AM, AD, Ah, Ami, Ase. reflexivity.
  - destruct (fixed_facts 6 us Hus) as (_ & Dg & _).
    replace (contains "." (skipn 19 _)) with true by reflexivity.
    replace (is_ascii _) with true.
    + now rewrite strptime_timestamp_micro.
    + symmetry.
      rewrite !is_ascii_app, AY, AM, AD, Ah, Ami, Ase, (digits_ascii _ Dg).
      reflexivity.
Qed.

Lemma timestamp_round_trip_witness :
  let dt := mk_datetime (mk_date 2024 2 29) (mk_time 7 8 9 500 None) in
  exists self,
    TimestampLoader.init false (fun _ => None) = Ok self
    /\ DateTimeDumper.dump (DateTimeDumper.init false (fun _ => None)) dt
       = B "2024-02-29 07:08:09.000500"
    /\ TimestampLoader.load self (fun _ => None)
         (DateTimeDumper.dump (DateTimeDumper.init false (fun _ => None)) dt) = Ok dt.
Proof.
  intros dt. eexists. split; [reflexivity|]. split; [reflexivity|].
  exact (timestamp_round_trip false (fun _ => None) (fun _ => None) _ _ dt
           eq_refl eq_refl eq_refl eq_refl eq_refl).
Defined.
